(** * Ghost Network: the simulation engine and its reference data

    A shallow embedding of [src/simulation/engine.js] and of the tables of
    [src/data/models.js].

    - JavaScript numbers are IEEE 754 binary64 values: they are modelled by
      Rocq's primitive floats, whose [+], [-], [*], [/] and comparisons are
      the same correctly rounded operations, and whose literals are read to
      the nearest binary64 value as JavaScript's are.
    - [Math.sin], [Math.cos], [Math.atan2] and the number formatters are
      left implementation-approximated (or locale-dependent) by ECMA-262:
      the engine is parametrised by a [Host] that supplies them.
    - A method that can throw returns a [result]; a method that assigns to
      [this] returns the new engine state.
    - The hour is an integer, as the callers pass it ([parseInt] of the
      time slider); nothing in the engine restricts its range.
    - [calculateDistance] is written over the record [Arith.t] of the
      operations it uses; the engine runs it at [number H], binary64 with
      the [Math] functions of the host [H]. *)

From Stdlib Require Import ZArith List String Ascii Bool Floats QArith Qabs Lia.
From Stdlib Require Import DecimalString.
Import ListNotations.

Set Warnings "-inexact-float".

Local Open Scope string_scope.

(* ================================================================== *)
(** ** The JavaScript values the engine handles *)

(** What a throwing method throws: the engine's own
    [Error('Simulation not fully configured')], or the [TypeError] of a
    property read on [null] or [undefined]. *)
Inductive error :=
| ConfigurationError (message : string)
| TypeError.

Inductive result (A : Type) :=
| Ok (value : A)
| Throw (e : error).
Arguments Ok {A} value.
Arguments Throw {A} e.

Definition bind {A B} (r : result A) (k : A -> result B) : result B :=
  match r with
  | Ok a => k a
  | Throw e => Throw e
  end.

Notation "x <- r ;; k" := (bind r (fun x => k))
  (at level 61, r at next level, right associativity).

(** The only throw besides the engine's own is a [TypeError]. *)
Definition only_TypeError {A} (r : result A) : Prop :=
  forall e, r = Throw e -> e = TypeError.

(** What one of the engine's selection fields can hold: [null] (the
    constructor's value), [undefined] (a failed table lookup), a record of
    the table, or a member of [Object.prototype] reached through the
    table's prototype chain (a table is a plain object literal). *)
Inductive slot (A : Type) :=
| Null
| Undefined
| Rec (record : A)
| Inherited (key : string).
Arguments Null {A}.
Arguments Undefined {A}.
Arguments Rec {A} record.
Arguments Inherited {A} key.

(** ToBoolean: objects and functions are truthy, [null] and [undefined]
    are not. *)
Definition truthy {A} (s : slot A) : bool :=
  match s with
  | Null | Undefined => false
  | Rec _ | Inherited _ => true
  end.

(** ToBoolean of a string: only the empty string is falsy. *)
Definition truthy_string (s : string) : bool :=
  match s with
  | EmptyString => false
  | String _ _ => true
  end.

(** ToBoolean of a number: [0], [-0] and [NaN] are falsy. *)
Definition truthy_number (x : float) : bool :=
  negb (PrimFloat.is_zero x || PrimFloat.is_nan x).

(** The property names every plain object inherits from
    [Object.prototype]; each names a function or, for [__proto__], the
    prototype object itself. *)
Definition Object_prototype_keys : list string :=
  [ "constructor"; "hasOwnProperty"; "isPrototypeOf"; "propertyIsEnumerable";
    "toLocaleString"; "toString"; "valueOf"; "__proto__";
    "__defineGetter__"; "__defineSetter__";
    "__lookupGetter__"; "__lookupSetter__" ].

(** An object literal: its own properties in insertion order.  [own] reads
    an own property; it is used directly where the key is one of the fixed
    names of the source or a [type] of the tables, none of which names a
    member of [Object.prototype]. *)
Definition object (A : Type) := list (string * A).

Fixpoint own {A} (o : object A) (key : string) : option A :=
  match o with
  | [] => None
  | (k, v) :: rest => if String.eqb k key then Some v else own rest key
  end.

Definition inherited (key : string) : bool :=
  existsb (String.eqb key) Object_prototype_keys.

(** What a property read finds up the prototype chain when the object has
    no own property [key]. *)
Definition prototype_lookup {A} (key : string) : slot A :=
  if inherited key then Inherited key else Undefined.

(** [o[key]] for a table [o]. *)
Definition get {A} (o : object A) (key : string) : slot A :=
  match own o key with
  | Some v => Rec v
  | None => prototype_lookup key
  end.

(** [Object.values(o)]. *)
Definition Object_values {A} (o : object A) : list A := map snd o.

(** [a[i]] for an array [a] and an integer [i]: [undefined] out of range. *)
Definition index {A} (a : list A) (i : Z) : option A :=
  if (i <? 0)%Z then None else nth_error a (Z.to_nat i).

(** ToNumber where a number is expected: [undefined] becomes [NaN]. *)
Definition to_number (v : option float) : float :=
  match v with
  | Some x => x
  | None => nan
  end.

(** A property read on a value that may be [null] or [undefined]. *)
Definition deref {A} (v : option A) : result A :=
  match v with
  | Some a => Ok a
  | None => Throw TypeError
  end.

(** A nested property read [s.p.q]: on a table record it succeeds; on an
    inherited function [s.p] is [undefined] and reading [.q] throws, as
    does reading [.p] on [null] or [undefined]. *)
Definition record_of {A} (s : slot A) : result A :=
  match s with
  | Rec a => Ok a
  | _ => Throw TypeError
  end.

Definition Math_PI : float := 3.141592653589793%float.

(** [Math.min(x, y)]: [NaN] if either is, and [-0] below [+0]. *)
Definition Math_min (x y : float) : float :=
  if PrimFloat.is_nan x || PrimFloat.is_nan y then nan
  else if PrimFloat.ltb x y then x
  else if PrimFloat.ltb y x then y
  else if PrimFloat.is_zero x && PrimFloat.get_sign x then x
  else y.

(** The integer a finite float [x] rounds to under [Math.round]:
    [floor(x + 1/2)], computed on the exact value [m * 2^e]. *)
Definition round_half_up (negative : bool) (m : positive) (e : Z) : Z :=
  let v := if negative then Z.neg m else Z.pos m in
  if (0 <=? e)%Z then Z.shiftl v e
  else Z.shiftr (v + Z.shiftl 1 (- e - 1)) (- e).

(** [Math.round(x)]: [NaN], the infinities and the zeros are returned as
    they are; a negative [x] that rounds to zero gives [-0]. *)
Definition Math_round (x : float) : float :=
  match Prim2SF x with
  | S754_finite s m e =>
      let n := round_half_up s m e in
      if (n =? 0)%Z then (if s then (-0)%float else 0%float)
      else SF2Prim (binary_normalize prec emax n 0 false)
  | _ => x
  end.

(** The exact rational value of a finite float. *)
Definition exact (x : float) : option Q :=
  match Prim2SF x with
  | S754_zero _ => Some 0%Q
  | S754_finite s m e =>
      let v := if s then Z.neg m else Z.pos m in
      Some (if (0 <=? e)%Z then inject_Z (v * 2 ^ e)
            else Qmake v (Z.to_pos (2 ^ (- e))))
  | _ => None
  end.

(** [x] is a finite float within [eps] of the rational [q]. *)
Definition close_to (x : float) (q eps : Q) : Prop :=
  exists v, exact x = Some v /\ (Qabs (v - q) <= eps)%Q.

(* ================================================================== *)
(** ** The reference data ([src/data/models.js]) *)

(** A geographic coordinate, in degrees.  The tables hold binary64
    coordinates. *)
Record point (T : Type) := { lat : T; lng : T }.
Arguments lat {T} p.
Arguments lng {T} p.

Definition Coords : Type := point float.

Module City.
Record t := {
    id : string; name : string; country : string; flag : string;
    coords : Coords; population : float; context : string;
    defaultDatacenter : string }.
End City.

Module PowerSource.
Record t := { name : string; coords : Coords; type : string }.
End PowerSource.

Module Energy.
Record t := {
    gridMix : object float; pue : float; carbonIntensity : float;
    sources : list PowerSource.t }.
End Energy.

Module Water.
Record t := {
    source : string; sourceCoords : Coords; stressLevel : string;
    wue : float; aquiferDepletion : float; annualWithdrawal : float }.
End Water.

Module Climate.
Record t := { avgTemp : float; coolingDays : float; heatPenalty : float }.
End Climate.

Module Datacenter.
Record t := {
    id : string; name : string; location : string; coords : Coords;
    operator : string;
    energy : Energy.t; water : Water.t; climate : Climate.t }.
End Datacenter.

(** The per-session metrics of a workload: each workload kind fills its
    own fields, and a field it leaves out reads as [undefined]. *)
Module PerSession.
Record t := {
    queries : option float; tokensPerQuery : option float;
    kwhPerQuery : option float;
    images : option float; stepsPerImage : option float;
    resolution : option string; kwhPerImage : option float;
    sensors : option float; predictionsPerHour : option float;
    cameras : option float; facesPerMinute : option float;
    kwhPerHour : option float;
    durationMinutes : option float }.
End PerSession.

Module Scaling.
Record t := {
    modelSize : string; gpuType : string;
    gpusPerQuery : option float; gpusPerImage : option float;
    gpusPerHour : option float }.
End Scaling.

Module Workload.
Record t := {
    id : string; name : string; icon : string; description : string;
    intensity : string;
    perSession : PerSession.t; scaling : Scaling.t }.
End Workload.

Module Material.
Record t := {
    name : string; icon : string; source : string; sourceCoords : Coords;
    use : string; laborIssue : string; annualDemandTons : float }.
End Material.

Module Ewaste.
Record t := {
    name : string; coords : Coords; description : string;
    annualTons : float; healthImpact : string }.
End Ewaste.

Module Destination.
Record t := { name : string; coords : Coords }.
End Destination.

Module Drift.
Record t := {
    direction : string; destinations : list Destination.t;
    driftDistanceKm : float }.
End Drift.

Local Open Scope float_scope.

Definition CITIES : object City.t :=
  [ ("barcelona",
     {| City.id := "barcelona"; City.name := "Barcelona";
        City.country := "Spain"; City.flag := "🇪🇸";
        City.coords := {| lat := 41.3851; lng := 2.1734 |};
        City.population := 1620000;
        City.context := "European tech hub with growing smart city initiatives";
        City.defaultDatacenter := "ireland" |});
    ("lagos",
     {| City.id := "lagos"; City.name := "Lagos";
        City.country := "Nigeria"; City.flag := "🇳🇬";
        City.coords := {| lat := 6.5244; lng := 3.3792 |};
        City.population := 15400000;
        City.context := "Africa's largest city, emerging digital economy with infrastructure gaps";
        City.defaultDatacenter := "singapore" |});
    ("phoenix",
     {| City.id := "phoenix"; City.name := "Phoenix";
        City.country := "USA"; City.flag := "🇺🇸";
        City.coords := {| lat := 33.4484; lng := -112.0740 |};
        City.population := 1680000;
        City.context := "Desert metropolis with extreme heat and water scarcity";
        City.defaultDatacenter := "arizona" |});
    ("dublin",
     {| City.id := "dublin"; City.name := "Dublin";
        City.country := "Ireland"; City.flag := "🇮🇪";
        City.coords := {| lat := 53.3498; lng := -6.2603 |};
        City.population := 544000;
        City.context := "Major European data center hub due to tax incentives and climate";
        City.defaultDatacenter := "ireland" |}) ].

Definition arizona : Datacenter.t :=
  {| Datacenter.id := "arizona"; Datacenter.name := "Arizona Hyperscale";
     Datacenter.location := "Phoenix, Arizona";
     Datacenter.coords := {| lat := 33.3942; lng := -111.9261 |};
     Datacenter.operator := "Generic Cloud Provider";
     Datacenter.energy :=
       {| Energy.gridMix :=
            [ ("natural_gas", 0.35); ("coal", 0.10); ("nuclear", 0.28);
              ("solar", 0.15); ("wind", 0.07); ("hydro", 0.05) ];
          Energy.pue := 1.25;
          Energy.carbonIntensity := 385;
          Energy.sources :=
            [ {| PowerSource.name := "Palo Verde Nuclear";
                 PowerSource.coords := {| lat := 33.3886; lng := -112.8615 |};
                 PowerSource.type := "nuclear" |};
              {| PowerSource.name := "Gila River Gas Plant";
                 PowerSource.coords := {| lat := 33.0589; lng := -112.6854 |};
                 PowerSource.type := "gas" |};
              {| PowerSource.name := "Solana Solar";
                 PowerSource.coords := {| lat := 32.9297; lng := -112.9798 |};
                 PowerSource.type := "solar" |} ] |};
     Datacenter.water :=
       {| Water.source := "Colorado River Basin / Central Arizona Project";
          Water.sourceCoords := {| lat := 36.0161; lng := -114.7377 |};
          Water.stressLevel := "extreme";
          Water.wue := 1.8;
          Water.aquiferDepletion := 0.42;
          Water.annualWithdrawal := 2500000000 |};
     Datacenter.climate :=
       {| Climate.avgTemp := 35; Climate.coolingDays := 280;
          Climate.heatPenalty := 1.4 |} |}.

Definition finland : Datacenter.t :=
  {| Datacenter.id := "finland"; Datacenter.name := "Nordic Green DC";
     Datacenter.location := "Hamina, Finland";
     Datacenter.coords := {| lat := 60.5693; lng := 27.1878 |};
     Datacenter.operator := "Generic Cloud Provider";
     Datacenter.energy :=
       {| Energy.gridMix :=
            [ ("nuclear", 0.33); ("hydro", 0.22); ("wind", 0.15);
              ("biomass", 0.12); ("natural_gas", 0.10); ("coal", 0.05);
              ("peat", 0.03) ];
          Energy.pue := 1.10;
          Energy.carbonIntensity := 120;
          Energy.sources :=
            [ {| PowerSource.name := "Olkiluoto Nuclear";
                 PowerSource.coords := {| lat := 61.2354; lng := 21.4424 |};
                 PowerSource.type := "nuclear" |};
              {| PowerSource.name := "Baltic Wind Farm";
                 PowerSource.coords := {| lat := 60.1699; lng := 24.9384 |};
                 PowerSource.type := "wind" |} ] |};
     Datacenter.water :=
       {| Water.source := "Baltic Sea (seawater cooling)";
          Water.sourceCoords := {| lat := 60.4; lng := 27.0 |};
          Water.stressLevel := "low";
          Water.wue := 0.0;
          Water.aquiferDepletion := 0.0;
          Water.annualWithdrawal := 0 |};
     Datacenter.climate :=
       {| Climate.avgTemp := 5; Climate.coolingDays := 45;
          Climate.heatPenalty := 0.85 |} |}.

Definition singapore : Datacenter.t :=
  {| Datacenter.id := "singapore"; Datacenter.name := "Equinix SG Hub";
     Datacenter.location := "Singapore";
     Datacenter.coords := {| lat := 1.3521; lng := 103.8198 |};
     Datacenter.operator := "Equinix";
     Datacenter.energy :=
       {| Energy.gridMix :=
            [ ("natural_gas", 0.95); ("solar", 0.03); ("other", 0.02) ];
          Energy.pue := 1.55;
          Energy.carbonIntensity := 420;
          Energy.sources :=
            [ {| PowerSource.name := "Jurong Island Gas Plants";
                 PowerSource.coords := {| lat := 1.2653; lng := 103.6990 |};
                 PowerSource.type := "gas" |};
              {| PowerSource.name := "Sembcorp LNG";
                 PowerSource.coords := {| lat := 1.2456; lng := 103.7105 |};
                 PowerSource.type := "lng" |} ] |};
     Datacenter.water :=
       {| Water.source := "NEWater (recycled) + Imported from Malaysia";
          Water.sourceCoords := {| lat := 1.4472; lng := 103.7867 |};
          Water.stressLevel := "high";
          Water.wue := 2.2;
          Water.aquiferDepletion := 0.0;
          Water.annualWithdrawal := 1800000000 |};
     Datacenter.climate :=
       {| Climate.avgTemp := 31; Climate.coolingDays := 365;
          Climate.heatPenalty := 1.55 |} |}.

Definition ireland : Datacenter.t :=
  {| Datacenter.id := "ireland"; Datacenter.name := "Dublin Cloud Campus";
     Datacenter.location := "Dublin, Ireland";
     Datacenter.coords := {| lat := 53.4055; lng := -6.3725 |};
     Datacenter.operator := "Generic Cloud Provider";
     Datacenter.energy :=
       {| Energy.gridMix :=
            [ ("wind", 0.35); ("natural_gas", 0.48); ("coal", 0.06);
              ("hydro", 0.03); ("peat", 0.05); ("solar", 0.03) ];
          Energy.pue := 1.15;
          Energy.carbonIntensity := 295;
          Energy.sources :=
            [ {| PowerSource.name := "Arklow Wind Farm";
                 PowerSource.coords := {| lat := 52.7945; lng := -6.0051 |};
                 PowerSource.type := "wind" |};
              {| PowerSource.name := "Dublin Bay Gas";
                 PowerSource.coords := {| lat := 53.3331; lng := -6.1245 |};
                 PowerSource.type := "gas" |} ] |};
     Datacenter.water :=
       {| Water.source := "River Liffey / Bohernabreena Reservoir";
          Water.sourceCoords := {| lat := 53.2452; lng := -6.3658 |};
          Water.stressLevel := "moderate";
          Water.wue := 0.8;
          Water.aquiferDepletion := 0.15;
          Water.annualWithdrawal := 450000000 |};
     Datacenter.climate :=
       {| Climate.avgTemp := 10; Climate.coolingDays := 90;
          Climate.heatPenalty := 1.0 |} |}.

Definition DATACENTERS : object Datacenter.t :=
  [ ("arizona", arizona); ("finland", finland);
    ("singapore", singapore); ("ireland", ireland) ].

Definition WORKLOADS : object Workload.t :=
  [ ("chatbot",
     {| Workload.id := "chatbot"; Workload.name := "AI Chatbot";
        Workload.icon := "💬";
        Workload.description := "Large language model inference for conversational AI";
        Workload.intensity := "low";
        Workload.perSession :=
          {| PerSession.queries := Some 25;
             PerSession.tokensPerQuery := Some 500;
             PerSession.kwhPerQuery := Some 0.0029;
             PerSession.images := None; PerSession.stepsPerImage := None;
             PerSession.resolution := None; PerSession.kwhPerImage := None;
             PerSession.sensors := None; PerSession.predictionsPerHour := None;
             PerSession.cameras := None; PerSession.facesPerMinute := None;
             PerSession.kwhPerHour := None;
             PerSession.durationMinutes := Some 15 |};
        Workload.scaling :=
          {| Scaling.modelSize := "large"; Scaling.gpuType := "A100";
             Scaling.gpusPerQuery := Some 8; Scaling.gpusPerImage := None;
             Scaling.gpusPerHour := None |} |});
    ("image",
     {| Workload.id := "image"; Workload.name := "Image Generator";
        Workload.icon := "🎨";
        Workload.description := "Diffusion model for AI image synthesis";
        Workload.intensity := "high";
        Workload.perSession :=
          {| PerSession.queries := None; PerSession.tokensPerQuery := None;
             PerSession.kwhPerQuery := None;
             PerSession.images := Some 10;
             PerSession.stepsPerImage := Some 50;
             PerSession.resolution := Some "1024x1024";
             PerSession.kwhPerImage := Some 0.029;
             PerSession.sensors := None; PerSession.predictionsPerHour := None;
             PerSession.cameras := None; PerSession.facesPerMinute := None;
             PerSession.kwhPerHour := None;
             PerSession.durationMinutes := Some 20 |};
        Workload.scaling :=
          {| Scaling.modelSize := "xl"; Scaling.gpuType := "A100";
             Scaling.gpusPerQuery := None; Scaling.gpusPerImage := Some 1;
             Scaling.gpusPerHour := None |} |});
    ("traffic",
     {| Workload.id := "traffic"; Workload.name := "Traffic AI";
        Workload.icon := "🚦";
        Workload.description := "Real-time urban traffic optimization system";
        Workload.intensity := "medium";
        Workload.perSession :=
          {| PerSession.queries := None; PerSession.tokensPerQuery := None;
             PerSession.kwhPerQuery := None;
             PerSession.images := None; PerSession.stepsPerImage := None;
             PerSession.resolution := None; PerSession.kwhPerImage := None;
             PerSession.sensors := Some 500;
             PerSession.predictionsPerHour := Some 12000;
             PerSession.cameras := None; PerSession.facesPerMinute := None;
             PerSession.kwhPerHour := Some 2.5;
             PerSession.durationMinutes := Some 60 |};
        Workload.scaling :=
          {| Scaling.modelSize := "medium"; Scaling.gpuType := "T4";
             Scaling.gpusPerQuery := None; Scaling.gpusPerImage := None;
             Scaling.gpusPerHour := Some 4 |} |});
    ("biometric",
     {| Workload.id := "biometric"; Workload.name := "Biometric Security";
        Workload.icon := "👁️";
        Workload.description := "Facial recognition and surveillance processing";
        Workload.intensity := "continuous";
        Workload.perSession :=
          {| PerSession.queries := None; PerSession.tokensPerQuery := None;
             PerSession.kwhPerQuery := None;
             PerSession.images := None; PerSession.stepsPerImage := None;
             PerSession.resolution := None; PerSession.kwhPerImage := None;
             PerSession.sensors := None; PerSession.predictionsPerHour := None;
             PerSession.cameras := Some 100;
             PerSession.facesPerMinute := Some 1000;
             PerSession.kwhPerHour := Some 8.5;
             PerSession.durationMinutes := Some 60 |};
        Workload.scaling :=
          {| Scaling.modelSize := "edge-optimized"; Scaling.gpuType := "T4";
             Scaling.gpusPerQuery := None; Scaling.gpusPerImage := None;
             Scaling.gpusPerHour := Some 12 |} |}) ].

Definition MATERIALS : object Material.t :=
  [ ("cobalt",
     {| Material.name := "Cobalt"; Material.icon := "⛏️";
        Material.source := "Democratic Republic of Congo";
        Material.sourceCoords := {| lat := -10.4167; lng := 25.9167 |};
        Material.use := "GPU batteries and power systems";
        Material.laborIssue := "Child labor, unsafe mining conditions";
        Material.annualDemandTons := 175000 |});
    ("lithium",
     {| Material.name := "Lithium"; Material.icon := "🔋";
        Material.source := "Chile / Argentina / Australia";
        Material.sourceCoords := {| lat := -23.8634; lng := -67.4511 |};
        Material.use := "Battery storage systems";
        Material.laborIssue := "Water depletion in indigenous lands";
        Material.annualDemandTons := 130000 |});
    ("rareEarth",
     {| Material.name := "Rare Earth Elements"; Material.icon := "💎";
        Material.source := "China (Bayan Obo)";
        Material.sourceCoords := {| lat := 41.8000; lng := 109.9667 |};
        Material.use := "Magnets in hard drives and cooling systems";
        Material.laborIssue := "Toxic waste, radioactive tailings";
        Material.annualDemandTons := 240000 |});
    ("silicon",
     {| Material.name := "Silicon"; Material.icon := "🔌";
        Material.source := "China (Xinjiang)";
        Material.sourceCoords := {| lat := 41.7685; lng := 86.1471 |};
        Material.use := "Semiconductor fabrication";
        Material.laborIssue := "Forced labor allegations";
        Material.annualDemandTons := 8000000 |});
    ("copper",
     {| Material.name := "Copper"; Material.icon := "🔶";
        Material.source := "Chile / Peru";
        Material.sourceCoords := {| lat := -22.4585; lng := -68.9291 |};
        Material.use := "Wiring, heat sinks, infrastructure";
        Material.laborIssue := "Environmental destruction, water conflicts";
        Material.annualDemandTons := 25000000 |}) ].

Definition EWASTE : object Ewaste.t :=
  [ ("ghana",
     {| Ewaste.name := "Agbogbloshie, Ghana";
        Ewaste.coords := {| lat := 5.5500; lng := -0.2167 |};
        Ewaste.description := "World's largest e-waste dump";
        Ewaste.annualTons := 250000;
        Ewaste.healthImpact := "Lead poisoning, respiratory disease" |});
    ("india",
     {| Ewaste.name := "Seelampur, Delhi";
        Ewaste.coords := {| lat := 28.6842; lng := 77.2656 |};
        Ewaste.description := "Informal recycling hub";
        Ewaste.annualTons := 95000;
        Ewaste.healthImpact := "Toxic fumes, child labor" |});
    ("china",
     {| Ewaste.name := "Guiyu, China";
        Ewaste.coords := {| lat := 23.2958; lng := 116.3536 |};
        Ewaste.description := "Historic e-waste processing center";
        Ewaste.annualTons := 150000;
        Ewaste.healthImpact := "Heavy metal contamination" |});
    ("pakistan",
     {| Ewaste.name := "Karachi";
        Ewaste.coords := {| lat := 24.8607; lng := 67.0011 |};
        Ewaste.description := "Growing informal sector";
        Ewaste.annualTons := 45000;
        Ewaste.healthImpact := "Unregulated burning, water pollution" |}) ].

Definition EMISSIONS_DRIFT : object Drift.t :=
  [ ("arizona",
     {| Drift.direction := "west-northwest";
        Drift.destinations :=
          [ {| Destination.name := "California";
               Destination.coords := {| lat := 36.7783; lng := -119.4179 |} |};
            {| Destination.name := "Pacific Ocean";
               Destination.coords := {| lat := 32.0; lng := -130.0 |} |} ];
        Drift.driftDistanceKm := 2400 |});
    ("finland",
     {| Drift.direction := "east";
        Drift.destinations :=
          [ {| Destination.name := "Russia";
               Destination.coords := {| lat := 61.5240; lng := 105.3188 |} |};
            {| Destination.name := "Arctic";
               Destination.coords := {| lat := 70.0; lng := 30.0 |} |} ];
        Drift.driftDistanceKm := 3200 |});
    ("singapore",
     {| Drift.direction := "north";
        Drift.destinations :=
          [ {| Destination.name := "South China Sea";
               Destination.coords := {| lat := 15.0; lng := 110.0 |} |};
            {| Destination.name := "Vietnam Coast";
               Destination.coords := {| lat := 16.0544; lng := 108.2022 |} |} ];
        Drift.driftDistanceKm := 1800 |});
    ("ireland",
     {| Drift.direction := "east";
        Drift.destinations :=
          [ {| Destination.name := "United Kingdom";
               Destination.coords := {| lat := 54.7024; lng := -3.2766 |} |};
            {| Destination.name := "North Sea";
               Destination.coords := {| lat := 56.0; lng := 3.0 |} |} ];
        Drift.driftDistanceKm := 1200 |}) ].

(** The three hour-of-day modifier arrays. *)
Module TIME_MODIFIERS.
Definition waterUsageByHour : list float :=
  [ 0.6; 0.5; 0.5; 0.5; 0.5; 0.6;
    0.7; 0.8; 0.9; 1.0; 1.1; 1.2;
    1.3; 1.4; 1.5; 1.5; 1.4; 1.3;
    1.1; 1.0; 0.9; 0.8; 0.7; 0.6 ].
Definition carbonIntensityByHour : list float :=
  [ 1.1; 1.1; 1.1; 1.1; 1.05; 1.0;
    0.95; 0.9; 0.85; 0.8; 0.75; 0.7;
    0.7; 0.7; 0.75; 0.8; 0.85; 0.9;
    0.95; 1.0; 1.05; 1.1; 1.1; 1.1 ].
Definition demandByHour : list float :=
  [ 0.7; 0.65; 0.6; 0.6; 0.65; 0.7;
    0.8; 0.9; 1.0; 1.1; 1.15; 1.2;
    1.15; 1.1; 1.15; 1.2; 1.25; 1.2;
    1.1; 1.0; 0.9; 0.85; 0.8; 0.75 ].
End TIME_MODIFIERS.

(* ================================================================== *)
(** ** What the engine computes ([src/simulation/engine.js]) *)

Module Electricity.
Record t := {
  baseKwh : float; withOverhead : float; pue : float; heatPenalty : float;
  gridMix : object float; fossilPercent : float;
  sources : list PowerSource.t }.
End Electricity.

Module WaterUse.
Record t := {
  liters : float; wue : float; source : string; sourceCoords : Coords;
  stressLevel : string; aquiferDepletion : float;
  hourModifier : option float; litersPerSecond : float }.
End WaterUse.

Module Emissions.
Record t := {
  grams : float; carbonIntensity : float; baseCarbonIntensity : float;
  drift : slot Drift.t; annualTonsCO2 : float }.
End Emissions.

Module Materials.
Record t := {
  materials : object (slot Material.t);
  ewasteDestinations : list Ewaste.t }.
End Materials.

Module NarrativeData.
Record t := {
  distanceKm : float; datacenterName : string; datacenterLocation : string;
  fossilPercent : float; waterLiters : float; waterSource : string;
  aquiferDepletion : float; waterLitersPerSecond : float;
  co2Grams : float; emissionsDrift : slot Drift.t; annualTonsCO2 : float;
  ewasteDestination : string }.
End NarrativeData.

Module Flow.
Record t := {
  type : string; subtype : option string;
  from : Coords; to : Coords; label : string; intensity : float;
  sourceType : option string; stressLevel : option string }.
End Flow.

(** The engine's fields. *)
Record SimulationEngine := {
  currentCity : slot City.t;
  currentWorkload : slot Workload.t;
  currentDatacenter : slot Datacenter.t;
  currentHour : Z }.

Module Simulation.
Record t := {
  city : slot City.t; workload : slot Workload.t;
  datacenter : slot Datacenter.t; hour : Z;
  distance : float;
  electricity : Electricity.t; water : WaterUse.t;
  emissions : Emissions.t; materials : Materials.t;
  narrative : string; narrativeData : NarrativeData.t;
  flows : list Flow.t }.
End Simulation.

Module Comparison.
Record t := {
  waterDifference : float;
  emissionsDifference : float;
  electricityDifference : float }.
End Comparison.

Module Compared.
Record t := {
  dc1 : Simulation.t; dc2 : Simulation.t; comparison : Comparison.t }.
End Compared.

(** The argument of [configure]: a field left out reads as [undefined]. *)
Module Args.
Record t := {
  city : option string; workload : option string;
  datacenter : option string; hour : option Z }.
End Args.

(** The arithmetic [calculateDistance] is written in: the literals, the
    four operations and the [Math] members it uses. *)
Module Arith.
Record t (T : Type) := {
  num : Z -> T;
  add : T -> T -> T;
  sub : T -> T -> T;
  mul : T -> T -> T;
  div : T -> T -> T;
  PI : T;
  sin : T -> T;
  cos : T -> T;
  sqrt : T -> T;
  atan2 : T -> T -> T }.
Arguments num {T} _ _.
Arguments add {T} _ _ _.
Arguments sub {T} _ _ _.
Arguments mul {T} _ _ _.
Arguments div {T} _ _ _.
Arguments PI {T} _.
Arguments sin {T} _ _.
Arguments cos {T} _ _.
Arguments sqrt {T} _ _.
Arguments atan2 {T} _ _ _.
End Arith.

Section Distance.
Context {T : Type} (A : Arith.t T).

Definition toRad (deg : T) : T :=
  Arith.mul A deg (Arith.div A (Arith.PI A) (Arith.num A 180)).

(** Calculate distance between two coordinates (Haversine formula). *)
Definition calculateDistance (coord1 coord2 : point T) : T :=
  let R := Arith.num A 6371 in
  let dLat := toRad (Arith.sub A (lat coord2) (lat coord1)) in
  let dLng := toRad (Arith.sub A (lng coord2) (lng coord1)) in
  let half x := Arith.div A x (Arith.num A 2) in
  let a :=
    Arith.add A
      (Arith.mul A (Arith.sin A (half dLat)) (Arith.sin A (half dLat)))
      (Arith.mul A
         (Arith.mul A
            (Arith.mul A (Arith.cos A (toRad (lat coord1)))
                         (Arith.cos A (toRad (lat coord2))))
            (Arith.sin A (half dLng)))
         (Arith.sin A (half dLng))) in
  let c :=
    Arith.mul A (Arith.num A 2)
      (Arith.atan2 A (Arith.sqrt A a)
                     (Arith.sqrt A (Arith.sub A (Arith.num A 1) a))) in
  Arith.mul A R c.
End Distance.

(** What the JavaScript host supplies: the [Math] functions ECMA-262
    leaves implementation-approximated, and the number formatters the
    narrative template calls. *)
Record Host := {
  Math_sin : float -> float;
  Math_cos : float -> float;
  Math_atan2 : float -> float -> float;
  Number_toLocaleString : float -> string;
  Number_toFixed : float -> nat -> string;
  Number_toString : float -> string }.

(** An integer literal as a binary64 number. *)
Definition float_of_Z (z : Z) : float :=
  SF2Prim (binary_normalize prec emax z 0 false).

(** Number arithmetic on a host. *)
Definition number (H : Host) : Arith.t float :=
  {| Arith.num := float_of_Z;
     Arith.add := PrimFloat.add; Arith.sub := PrimFloat.sub;
     Arith.mul := PrimFloat.mul; Arith.div := PrimFloat.div;
     Arith.PI := Math_PI;
     Arith.sin := Math_sin H; Arith.cos := Math_cos H;
     Arith.sqrt := PrimFloat.sqrt;
     Arith.atan2 := Math_atan2 H |}.

Definition newline : string := String (ascii_of_nat 10) "".

(** [NARRATIVES.standard(data)], the only template the engine calls.  It
    reads [data.emissionsDrift.direction] and
    [data.emissionsDrift.destinations[0].name], which throw when the drift
    entry or its first destination is missing. *)
Definition NARRATIVES_standard (H : Host) (data : NarrativeData.t)
  : result string :=
  let head :=
    newline ++ "    Your request traveled "
    ++ Number_toLocaleString H (NarrativeData.distanceKm data)
    ++ " km to a server in " ++ NarrativeData.datacenterLocation data ++ ". "
    ++ newline ++ "    The electricity came from a grid that is "
    ++ Number_toString H (Math_round (NarrativeData.fossilPercent data))
    ++ "% fossil-fueled. " ++ newline ++ "    "
    ++ (if 0 <? NarrativeData.waterLiters data
        then Number_toFixed H (NarrativeData.waterLiters data) 1
             ++ " liters of water were consumed for cooling."
        else "Seawater cooling was used.")
    ++ " " ++ newline ++ "    "
    ++ Number_toFixed H (NarrativeData.co2Grams data) 0
    ++ "g of CO₂ was released—it will drift " in
  drift <- record_of (NarrativeData.emissionsDrift data) ;;
  first <- deref (index (Drift.destinations drift) 0) ;;
  Ok (head ++ Drift.direction drift ++ " toward "
      ++ Destination.name first ++ "." ++ newline ++ "  ").

(** [x || y] on numbers, [x] possibly [undefined]. *)
Definition or_number (x : option float) (y : float) : float :=
  match x with
  | Some v => if truthy_number v then v else y
  | None => y
  end.

(** [flows.push(flow)]. *)
Definition push {A} (flows : list A) (flow : A) : list A :=
  (flows ++ [flow])%list.

(** [for (const x of xs) body], where the body updates [flows] or throws. *)
Fixpoint for_of {A B} (xs : list A) (body : list B -> A -> result (list B))
  (flows : list B) : result (list B) :=
  match xs with
  | [] => Ok flows
  | x :: rest => flows' <- body flows x ;; for_of rest body flows'
  end.

(** [array.slice(0, n)]. *)
Definition slice0 {A} (n : nat) (a : list A) : list A := firstn n a.

Definition constructor : SimulationEngine :=
  {| currentCity := Null; currentWorkload := Null;
     currentDatacenter := Null; currentHour := 14 |}.

Definition set_currentCity (this : SimulationEngine) v : SimulationEngine :=
  {| currentCity := v; currentWorkload := currentWorkload this;
     currentDatacenter := currentDatacenter this;
     currentHour := currentHour this |}.

Definition set_currentWorkload (this : SimulationEngine) v : SimulationEngine :=
  {| currentCity := currentCity this; currentWorkload := v;
     currentDatacenter := currentDatacenter this;
     currentHour := currentHour this |}.

Definition set_currentDatacenter (this : SimulationEngine) v : SimulationEngine :=
  {| currentCity := currentCity this; currentWorkload := currentWorkload this;
     currentDatacenter := v; currentHour := currentHour this |}.

Definition set_currentHour (this : SimulationEngine) v : SimulationEngine :=
  {| currentCity := currentCity this; currentWorkload := currentWorkload this;
     currentDatacenter := currentDatacenter this; currentHour := v |}.

(** [if (key) this.field = TABLE[key]]. *)
Definition assign_if_truthy {A} (key : option string) (table : object A)
  (set : slot A -> SimulationEngine) (this : SimulationEngine)
  : SimulationEngine :=
  match key with
  | Some k => if truthy_string k then set (get table k) else this
  | None => this
  end.

(** Set simulation parameters. *)
Definition configure (this : SimulationEngine) (args : Args.t)
  : SimulationEngine :=
  let this := assign_if_truthy (Args.city args) CITIES
                (set_currentCity this) this in
  let this := assign_if_truthy (Args.workload args) WORKLOADS
                (set_currentWorkload this) this in
  let this := assign_if_truthy (Args.datacenter args) DATACENTERS
                (set_currentDatacenter this) this in
  match Args.hour args with
  | Some h => set_currentHour this h
  | None => this
  end.

(** Calculate fossil fuel percentage of grid. *)
Definition calculateFossilPercent (gridMix : object float) : float :=
  let fossilSources := ["natural_gas"; "coal"; "peat"; "oil"] in
  let fossilTotal :=
    fold_left
      (fun fossilTotal source =>
         match own gridMix source with
         | Some share =>
             if truthy_number share then fossilTotal + share else fossilTotal
         | None => fossilTotal
         end)
      fossilSources 0 in
  fossilTotal * 100.

(** The [switch (workload.id)] of [calculateElectricity]; an inherited
    function has no [id], and [baseKwh] stays [0] when no case matches. *)
Definition baseKwh_of (workload : slot Workload.t) : result float :=
  match workload with
  | Null | Undefined => Throw TypeError
  | Inherited _ => Ok 0
  | Rec w =>
      let s := Workload.perSession w in
      Ok (if String.eqb (Workload.id w) "chatbot" then
            to_number (PerSession.queries s)
            * to_number (PerSession.kwhPerQuery s)
          else if String.eqb (Workload.id w) "image" then
            to_number (PerSession.images s)
            * to_number (PerSession.kwhPerImage s)
          else if String.eqb (Workload.id w) "traffic" then
            to_number (PerSession.kwhPerHour s)
          else if String.eqb (Workload.id w) "biometric" then
            to_number (PerSession.kwhPerHour s)
          else 0)
  end.

(** Calculate electricity consumption; [Ok None] is the [null] result. *)
Definition calculateElectricity (this : SimulationEngine)
  : result (option Electricity.t) :=
  if negb (truthy (currentWorkload this))
     || negb (truthy (currentDatacenter this)) then Ok None
  else
    let workload := currentWorkload this in
    let hourModifier :=
      index TIME_MODIFIERS.demandByHour (currentHour this) in
    baseKwh <- baseKwh_of workload ;;
    dc <- record_of (currentDatacenter this) ;;
    let withPue := baseKwh * Energy.pue (Datacenter.energy dc) in
    let withHeat := withPue * Climate.heatPenalty (Datacenter.climate dc) in
    let final := withHeat * to_number hourModifier in
    Ok (Some
          {| Electricity.baseKwh := baseKwh;
             Electricity.withOverhead := final;
             Electricity.pue := Energy.pue (Datacenter.energy dc);
             Electricity.heatPenalty :=
               Climate.heatPenalty (Datacenter.climate dc);
             Electricity.gridMix := Energy.gridMix (Datacenter.energy dc);
             Electricity.fossilPercent :=
               calculateFossilPercent (Energy.gridMix (Datacenter.energy dc));
             Electricity.sources := Energy.sources (Datacenter.energy dc) |}).

(** Calculate water consumption. *)
Definition calculateWater (this : SimulationEngine)
  : result (option WaterUse.t) :=
  if negb (truthy (currentDatacenter this))
     || negb (truthy (currentWorkload this)) then Ok None
  else
    electricity <- calculateElectricity this ;;
    match electricity with
    | None => Ok None
    | Some electricity =>
        let hourModifier :=
          index TIME_MODIFIERS.waterUsageByHour (currentHour this) in
        dc <- record_of (currentDatacenter this) ;;
        let baseLiters :=
          Electricity.withOverhead electricity
          * Water.wue (Datacenter.water dc) in
        let withTimeModifier := baseLiters * to_number hourModifier in
        Ok (Some
              {| WaterUse.liters := withTimeModifier;
                 WaterUse.wue := Water.wue (Datacenter.water dc);
                 WaterUse.source := Water.source (Datacenter.water dc);
                 WaterUse.sourceCoords :=
                   Water.sourceCoords (Datacenter.water dc);
                 WaterUse.stressLevel :=
                   Water.stressLevel (Datacenter.water dc);
                 WaterUse.aquiferDepletion :=
                   Water.aquiferDepletion (Datacenter.water dc);
                 WaterUse.hourModifier := hourModifier;
                 WaterUse.litersPerSecond :=
                   Water.annualWithdrawal (Datacenter.water dc)
                   / ((365 * 24) * 3600) |})
    end.

(** Calculate CO2 emissions.  Only the datacenter is checked: with no
    workload [calculateElectricity] returns [null] and reading
    [electricity.withOverhead] throws. *)
Definition calculateEmissions (this : SimulationEngine)
  : result (option Emissions.t) :=
  if negb (truthy (currentDatacenter this)) then Ok None
  else
    electricity <- calculateElectricity this ;;
    let hourModifier :=
      index TIME_MODIFIERS.carbonIntensityByHour (currentHour this) in
    dc <- record_of (currentDatacenter this) ;;
    let adjustedIntensity :=
      Energy.carbonIntensity (Datacenter.energy dc) * to_number hourModifier in
    electricity <- deref electricity ;;
    let grams := Electricity.withOverhead electricity * adjustedIntensity in
    let sessionsPerYear := (365 * 24) * 4 in
    let annualTons := (grams * sessionsPerYear) / 1000000 in
    Ok (Some
          {| Emissions.grams := grams;
             Emissions.carbonIntensity := adjustedIntensity;
             Emissions.baseCarbonIntensity :=
               Energy.carbonIntensity (Datacenter.energy dc);
             Emissions.drift := get EMISSIONS_DRIFT (Datacenter.id dc);
             Emissions.annualTonsCO2 := annualTons |}).

(** Get materials supply chain data. *)
Definition getMaterials : Materials.t :=
  let gpuMaterials := ["cobalt"; "lithium"; "rareEarth"; "silicon"] in
  let relevantMaterials :=
    fold_left
      (fun relevantMaterials key =>
         (relevantMaterials ++ [(key, get MATERIALS key)])%list)
      gpuMaterials [] in
  {| Materials.materials := relevantMaterials;
     Materials.ewasteDestinations := Object_values EWASTE |}.

(** Generate flow data for ghost line visualization.  [runSimulation] is
    the only caller, and it has read [coords] on the city and on the
    datacenter before: both are table records here.  So is every entry of
    [materials.materials], which [getMaterials] reads at four keys of
    [MATERIALS]. *)
Definition generateFlows (this : SimulationEngine)
  (electricity : Electricity.t) (water : WaterUse.t)
  (emissions : Emissions.t) (materials : Materials.t)
  : result (list Flow.t) :=
  let flows := [] in
  dc <- record_of (currentDatacenter this) ;;
  city <- record_of (currentCity this) ;;
  (* City to datacenter (data flow) *)
  let flows :=
    push flows
      {| Flow.type := "data"; Flow.subtype := None;
         Flow.from := City.coords city; Flow.to := Datacenter.coords dc;
         Flow.label := "Request"; Flow.intensity := 1;
         Flow.sourceType := None; Flow.stressLevel := None |} in
  (* Electricity sources to datacenter *)
  flows <-
    for_of (Electricity.sources electricity)
      (fun flows source =>
         Ok (push flows
               {| Flow.type := "electricity"; Flow.subtype := None;
                  Flow.from := PowerSource.coords source;
                  Flow.to := Datacenter.coords dc;
                  Flow.label := PowerSource.name source;
                  Flow.intensity :=
                    or_number
                      (own (Energy.gridMix (Datacenter.energy dc))
                           (PowerSource.type source))
                      0.1;
                  Flow.sourceType := Some (PowerSource.type source);
                  Flow.stressLevel := None |}))
      flows ;;
  (* Water source to datacenter *)
  let flows :=
    if 0 <? WaterUse.liters water then
      push flows
        {| Flow.type := "water"; Flow.subtype := None;
           Flow.from := WaterUse.sourceCoords water;
           Flow.to := Datacenter.coords dc;
           Flow.label := WaterUse.source water;
           Flow.intensity := Math_min (WaterUse.liters water / 10) 1;
           Flow.sourceType := None;
           Flow.stressLevel := Some (WaterUse.stressLevel water) |}
    else flows in
  (* Emissions drift *)
  flows <-
    (if truthy (Emissions.drift emissions) then
       drift <- record_of (Emissions.drift emissions) ;;
       for_of (Drift.destinations drift)
         (fun flows dest =>
            Ok (push flows
                  {| Flow.type := "emissions"; Flow.subtype := None;
                     Flow.from := Datacenter.coords dc;
                     Flow.to := Destination.coords dest;
                     Flow.label := "CO₂ drift to " ++ Destination.name dest;
                     Flow.intensity :=
                       Math_min (Emissions.grams emissions / 500) 1;
                     Flow.sourceType := None; Flow.stressLevel := None |}))
         flows
     else Ok flows) ;;
  (* Materials supply chains *)
  flows <-
    for_of (Materials.materials materials)
      (fun flows entry =>
         material <- record_of (snd entry) ;;
         Ok (push flows
               {| Flow.type := "materials"; Flow.subtype := Some "supply";
                  Flow.from := Material.sourceCoords material;
                  Flow.to := Datacenter.coords dc;
                  Flow.label := Material.name material;
                  Flow.intensity := 0.5;
                  Flow.sourceType := None; Flow.stressLevel := None |}))
      flows ;;
  (* E-waste flows *)
  for_of (slice0 2 (Materials.ewasteDestinations materials))
    (fun flows dest =>
       Ok (push flows
             {| Flow.type := "materials"; Flow.subtype := Some "ewaste";
                Flow.from := Datacenter.coords dc;
                Flow.to := Ewaste.coords dest;
                Flow.label := "E-waste to " ++ Ewaste.name dest;
                Flow.intensity := 0.3;
                Flow.sourceType := None; Flow.stressLevel := None |}))
    flows.

Section Engine.
Context (H : Host).

(** Run full simulation and return all results. *)
Definition runSimulation (this : SimulationEngine) : result Simulation.t :=
  if negb (truthy (currentCity this))
     || negb (truthy (currentWorkload this))
     || negb (truthy (currentDatacenter this))
  then Throw (ConfigurationError "Simulation not fully configured")
  else
    city <- record_of (currentCity this) ;;
    dc <- record_of (currentDatacenter this) ;;
    let distance :=
      calculateDistance (number H) (City.coords city) (Datacenter.coords dc) in
    electricity <- calculateElectricity this ;;
    water <- calculateWater this ;;
    emissions <- calculateEmissions this ;;
    let materials := getMaterials in
    (* Generate narrative *)
    electricity <- deref electricity ;;
    water <- deref water ;;
    emissions <- deref emissions ;;
    ewaste0 <- deref (index (Materials.ewasteDestinations materials) 0) ;;
    let narrativeData :=
      {| NarrativeData.distanceKm := Math_round distance;
         NarrativeData.datacenterName := Datacenter.name dc;
         NarrativeData.datacenterLocation := Datacenter.location dc;
         NarrativeData.fossilPercent := Electricity.fossilPercent electricity;
         NarrativeData.waterLiters := WaterUse.liters water;
         NarrativeData.waterSource := WaterUse.source water;
         NarrativeData.aquiferDepletion := WaterUse.aquiferDepletion water;
         NarrativeData.waterLitersPerSecond := WaterUse.litersPerSecond water;
         NarrativeData.co2Grams := Emissions.grams emissions;
         NarrativeData.emissionsDrift := Emissions.drift emissions;
         NarrativeData.annualTonsCO2 := Emissions.annualTonsCO2 emissions;
         NarrativeData.ewasteDestination := Ewaste.name ewaste0 |} in
    narrative <- NARRATIVES_standard H narrativeData ;;
    flows <- generateFlows this electricity water emissions materials ;;
    Ok {| Simulation.city := currentCity this;
          Simulation.workload := currentWorkload this;
          Simulation.datacenter := currentDatacenter this;
          Simulation.hour := currentHour this;
          Simulation.distance := distance;
          Simulation.electricity := electricity;
          Simulation.water := water;
          Simulation.emissions := emissions;
          Simulation.materials := materials;
          Simulation.narrative := narrative;
          Simulation.narrativeData := narrativeData;
          Simulation.flows := flows |}.

(** [((a - b) / b) * 100], as written three times in
    [compareDatacenters]. *)
Definition percentDifference (a b : float) : float := ((a - b) / b) * 100.

(** Compare two datacenter options.  The method assigns to
    [this.currentDatacenter]: it returns the engine as the call leaves it,
    together with what it returns or throws. *)
Definition compareDatacenters (this : SimulationEngine) (dc1Id dc2Id : string)
  : SimulationEngine * result Compared.t :=
  let original := currentDatacenter this in
  let this := set_currentDatacenter this (get DATACENTERS dc1Id) in
  match runSimulation this with
  | Throw e => (this, Throw e)
  | Ok results1 =>
      let this := set_currentDatacenter this (get DATACENTERS dc2Id) in
      match runSimulation this with
      | Throw e => (this, Throw e)
      | Ok results2 =>
          (* Restore original *)
          let this := set_currentDatacenter this original in
          (this,
           Ok {| Compared.dc1 := results1;
                 Compared.dc2 := results2;
                 Compared.comparison :=
                   {| Comparison.waterDifference :=
                        percentDifference
                          (WaterUse.liters (Simulation.water results1))
                          (WaterUse.liters (Simulation.water results2));
                      Comparison.emissionsDifference :=
                        percentDifference
                          (Emissions.grams (Simulation.emissions results1))
                          (Emissions.grams (Simulation.emissions results2));
                      Comparison.electricityDifference :=
                        percentDifference
                          (Electricity.withOverhead
                             (Simulation.electricity results1))
                          (Electricity.withOverhead
                             (Simulation.electricity results2)) |} |})
      end
  end.

End Engine.

(* ================================================================== *)
(** ** A host to run the engine on

    Series approximations of the three [Math] functions and plain decimal
    formatters.  The theorems below hold for every host; this one serves to
    evaluate the engine on concrete inputs. *)

Module SeriesHost.

(** [1 - r2/(k(k+1)) (1 - r2/((k+2)(k+3)) (1 - ...))], [n] factors deep. *)
Fixpoint alternating (n : nat) (k r2 : float) : float :=
  match n with
  | O => 1
  | S n' => 1 - (r2 / (k * (k + 1))) * alternating n' (k + 2) r2
  end.

(** The argument brought back to one period around [0]. *)
Definition reduce (x : float) : float :=
  x - Math_round (x / (2 * Math_PI)) * (2 * Math_PI).

Definition sin (x : float) : float :=
  let r := reduce x in r * alternating 14 2 (r * r).

Definition cos (x : float) : float :=
  let r := reduce x in alternating 14 1 (r * r).

(** [1/k - t2 (1/(k+2) - t2 (...))], [n] terms deep. *)
Fixpoint gregory (n : nat) (k t2 : float) : float :=
  match n with
  | O => 1 / k
  | S n' => 1 / k - t2 * gregory n' (k + 2) t2
  end.

(** [atan t] for [|t| <= 1], by two angle halvings and the series. *)
Definition atan_unit (t : float) : float :=
  let halve u := u / (1 + PrimFloat.sqrt (1 + u * u)) in
  let u := halve (halve t) in
  4 * (u * gregory 14 1 (u * u)).

Definition atan (t : float) : float :=
  if 1 <? t then Math_PI / 2 - atan_unit (1 / t)
  else if t <? -1 then - (Math_PI / 2) - atan_unit (1 / t)
  else atan_unit t.

Definition atan2 (y x : float) : float :=
  if 0 <? x then atan (y / x)
  else if x <? 0 then
    (if y <? 0 then atan (y / x) - Math_PI else atan (y / x) + Math_PI)
  else if 0 <? y then Math_PI / 2
  else if y <? 0 then - (Math_PI / 2)
  else x + y.

Definition digits (n : Z) : string :=
  NilZero.string_of_uint (N.to_uint (Z.to_N n)).

Fixpoint zeros (n : nat) : string :=
  match n with
  | O => ""
  | S n' => "0" ++ zeros n'
  end.

(** [x.toFixed(d)]: the decimal with [d] fraction digits nearest to the
    exact value of [x], the larger one on a tie. *)
Definition toFixed (x : float) (d : nat) : string :=
  match exact x with
  | None =>
      if PrimFloat.is_nan x then "NaN"
      else if PrimFloat.get_sign x then "-Infinity" else "Infinity"
  | Some q =>
      let scale := (10 ^ Z.of_nat d)%Z in
      let n := ((2 * Z.abs (Qnum q) * scale + Z.pos (Qden q))
                  / (2 * Z.pos (Qden q)))%Z in
      let whole := digits (n / scale) in
      let fraction := digits (n mod scale) in
      (if (Qnum q <? 0)%Z then "-" else "")
      ++ whole
      ++ (match d with
          | O => ""
          | S _ =>
              "." ++ zeros (d - String.length fraction) ++ fraction
          end)
  end.

(** Number::toString on the integers [Math.round] returns. *)
Definition toString (x : float) : string := toFixed x 0.

(** A locale that groups no digits and prints whole numbers. *)
Definition toLocaleString (x : float) : string := toFixed x 0.

Definition host : Host :=
  {| Math_sin := sin; Math_cos := cos; Math_atan2 := atan2;
     Number_toLocaleString := toLocaleString;
     Number_toFixed := toFixed;
     Number_toString := toString |}.

End SeriesHost.

(* ================================================================== *)
(** ** A host that rounds once

    [Math.sin] and [Math.cos] summed from the exact value of the argument
    in fixed point, with 192 fractional bits, and rounded once to the
    nearest binary64 number.  At the arguments of the examples it is used
    for, the values are the correctly rounded sine and cosine. *)

Module FixedPointHost.

(** An integer [v] stands for [v / 2^192]. *)
Definition bits : Z := 192.
Definition one : Z := Z.shiftl 1 bits.

Definition mul (a b : Z) : Z := Z.shiftr (a * b) bits.

(** [acc] and the terms after [term] of the series of the sine (from
    [k = 2]) or of the cosine (from [k = 1]): each term is the one before
    times [- r2 / (k (k + 1))]. *)
Fixpoint alternating (n : nat) (k term r2 acc : Z) : Z :=
  match n with
  | O => acc
  | S n' =>
      let term' := (- (mul term r2) / (k * (k + 1)))%Z in
      alternating n' (k + 2)%Z term' r2 (acc + term')%Z
  end.

(** [atan (1/q)], by the series of Gregory. *)
Fixpoint gregory (n : nat) (k power q2 acc : Z) : Z :=
  match n with
  | O => acc
  | S n' =>
      let power' := (- power / q2)%Z in
      gregory n' (k + 2)%Z power' q2 (acc + power' / k)%Z
  end.

Definition atan_inv (q : Z) : Z :=
  gregory 48 3 (one / q)%Z (q * q)%Z (one / q)%Z.

(** The number pi, by Machin's formula. *)
Definition PI : Z :=
  Eval vm_compute in (16 * atan_inv 5 - 4 * atan_inv 239)%Z.

(** The exact size of a finite number. *)
Definition magnitude (x : float) : option Z :=
  match Prim2SF x with
  | S754_zero _ => Some 0%Z
  | S754_finite _ m e => Some (Z.shiftl (Z.pos m) (e + bits))
  | _ => None
  end.

(** The binary64 number nearest to [v / 2^192], ties to even, with the
    given sign. *)
Definition nearest (negative : bool) (v : Z) : float :=
  let x := SF2Prim (binary_normalize prec emax v (- bits) false) in
  if negative then (- x)%float else x.

(** The argument less the nearest multiple of [2 pi]. *)
Definition reduce (v : Z) : Z :=
  (v - ((v + PI) / (2 * PI)) * (2 * PI))%Z.

(** Below [2^-40] the sine rounds to its argument. *)
Definition sin (x : float) : float :=
  match magnitude x with
  | None => nan
  | Some v =>
      if (v <? Z.shiftl 1 (bits - 40))%Z then x
      else
        let r := reduce v in
        let s := alternating 45 2 r (mul r r) r in
        nearest (xorb (PrimFloat.get_sign x) (s <? 0)%Z) (Z.abs s)
  end.

Definition cos (x : float) : float :=
  match magnitude x with
  | None => nan
  | Some v =>
      let r := reduce v in
      let c := alternating 45 1 one (mul r r) one in
      nearest (c <? 0)%Z (Z.abs c)
  end.

(** [Math.atan2]: a [NaN] operand gives [NaN], as ECMA-262 has it; the
    rest is the series of [SeriesHost]. *)
Definition atan2 (y x : float) : float :=
  if PrimFloat.is_nan y || PrimFloat.is_nan x then nan
  else SeriesHost.atan2 y x.

Definition host : Host :=
  {| Math_sin := sin; Math_cos := cos; Math_atan2 := atan2;
     Number_toLocaleString := SeriesHost.toLocaleString;
     Number_toFixed := SeriesHost.toFixed;
     Number_toString := SeriesHost.toString |}.

End FixedPointHost.

(* ================================================================== *)
(** ** Configurations used in the examples *)

(** [configure({city: 'phoenix', workload: 'image', datacenter: 'arizona',
    hour: 15})] on a fresh engine. *)
Definition phoenix_image_arizona : SimulationEngine :=
  configure constructor
    {| Args.city := Some "phoenix"; Args.workload := Some "image";
       Args.datacenter := Some "arizona"; Args.hour := Some 15%Z |}.

(** A datacenter and a workload are selected, no city. *)
Definition no_city : SimulationEngine :=
  configure constructor
    {| Args.city := None; Args.workload := Some "image";
       Args.datacenter := Some "arizona"; Args.hour := None |}.

(** Only a datacenter is selected. *)
Definition only_datacenter : SimulationEngine :=
  configure constructor
    {| Args.city := None; Args.workload := None;
       Args.datacenter := Some "arizona"; Args.hour := None |}.

(** The hours of a day. *)
Definition hours : list Z := map Z.of_nat (seq 0 24).

(** The engine with the given selections. *)
Definition engine_of (c : slot City.t) (w : Workload.t) (d : Datacenter.t)
  (h : Z) : SimulationEngine :=
  {| currentCity := c; currentWorkload := Rec w;
     currentDatacenter := Rec d; currentHour := h |}.

(** [calculateWater] returns a result whose [liters == 0]. *)
Definition liters_vanish (w : Workload.t) (d : Datacenter.t) (h : Z) : bool :=
  match calculateWater (engine_of Null w d h) with
  | Ok (Some r) => WaterUse.liters r =? 0
  | _ => false
  end.

(** [delta] is the quotient [((a - b) / b) * 100] as binary64 arithmetic
    gives it, a zero [b] included: [Infinity] for a positive [a], [NaN]
    for a zero [a]. *)
Definition raw_quotient (a b delta : float) : Prop :=
  delta = ((a - b) / b) * 100
  /\ (b = 0 -> (0 <? a) = true -> delta = infinity)
  /\ (b = 0 -> PrimFloat.is_zero a = true -> PrimFloat.is_nan delta = true).

(* ================================================================== *)
(** ** The flow list as the specification words it *)

Module FlowSpec.

(** What the specification fixes of a flow: type, subtype, origin,
    destination and intensity. *)
Record entry := {
  type : string; subtype : option string;
  from : Coords; to : Coords; intensity : float }.

Definition of_flow (f : Flow.t) : entry :=
  {| type := Flow.type f; subtype := Flow.subtype f;
     from := Flow.from f; to := Flow.to f; intensity := Flow.intensity f |}.


(** The curated materials: cobalt, lithium, rare earths, silicon. *)
Definition curated : list Material.t :=
  flat_map
    (fun key => match own MATERIALS key with Some m => [m] | None => [] end)
    ["cobalt"; "lithium"; "rareEarth"; "silicon"].

(** The six groups of flows, in order, for a given intensity of the
    electricity flows. *)
Definition expected_with (share : PowerSource.t -> float)
  (c : City.t) (d : Datacenter.t) (water : WaterUse.t)
  (grams : float) (destinations : list Destination.t) : list entry :=
  let here := Datacenter.coords d in
  ([ Build_entry "data" None (City.coords c) here 1 ]
   ++ map (fun s => Build_entry "electricity" None (PowerSource.coords s) here
                      (share s))
        (Energy.sources (Datacenter.energy d))
   ++ (if 0 <? WaterUse.liters water
       then [ Build_entry "water" None (WaterUse.sourceCoords water) here
                (Math_min (WaterUse.liters water / 10) 1) ]
       else [])
   ++ map (fun dest => Build_entry "emissions" None here
                         (Destination.coords dest)
                         (Math_min (grams / 500) 1))
        destinations
   ++ map (fun m => Build_entry "materials" (Some "supply")
                      (Material.sourceCoords m) here 0.5)
        curated
   ++ map (fun e => Build_entry "materials" (Some "ewaste") here
                      (Ewaste.coords e) 0.3)
        (firstn 2 (Object_values EWASTE)))%list.


(** The intensity the code gives an electricity flow:
    [dc.energy.gridMix[source.type] || 0.1]. *)
Definition share_or (d : Datacenter.t) (s : PowerSource.t) : float :=
  or_number (own (Energy.gridMix (Datacenter.energy d)) (PowerSource.type s))
    0.1.



End FlowSpec.

(* ================================================================== *)
(** ** The globe ([src/visualization/globe.js])

    The rendering rests on three.js and gsap, which are not part of the
    repository; what is embedded is the code's own arithmetic and control
    flow: the zoom clamp and the choice of the flows that get a
    line. *)

(** [Math.max(x, y)]: [NaN] if either is, and [+0] above [-0]. *)
Definition Math_max (x y : float) : float :=
  if PrimFloat.is_nan x || PrimFloat.is_nan y then nan
  else if PrimFloat.ltb y x then x
  else if PrimFloat.ltb x y then y
  else if PrimFloat.is_zero x && PrimFloat.get_sign x then y
  else x.

(** [onWheel]: the camera's [position.z] after a wheel event of the given
    [deltaY]. *)
Definition onWheel (z deltaY : float) : float :=
  let zoomSpeed := 0.001 in
  let z := z + deltaY * zoomSpeed in
  Math_max 1.5 (Math_min 5 z).

(** [o[key] = v] on an object literal: an own property is overwritten in
    place, a new one is added last. *)
Fixpoint set {A} (o : object A) (key : string) (v : A) : object A :=
  match o with
  | [] => [(key, v)]
  | (k, x) :: rest =>
      if String.eqb k key then (k, v) :: rest else (k, x) :: set rest key v
  end.

(** ToBoolean of [o[key]] for an object of booleans: a missing key reads
    [undefined], an inherited one a function. *)
Definition truthy_at (o : object bool) (key : string) : bool :=
  match own o key with
  | Some b => b
  | None => inherited key
  end.

Module Globe.

(** The four layers of [setAllLayersVisibility]. *)
Definition layers : list string :=
  ["electricity"; "water"; "emissions"; "materials"].

(** [this.layerVisibility] as the constructor sets it. *)
Definition layerVisibility : object bool :=
  [ ("electricity", true); ("water", true);
    ("emissions", true); ("materials", true) ].

(** [setLayerVisibility(layer, visible)]: the [layerVisibility] it
    leaves. *)
Definition setLayerVisibility (layerVisibility : object bool)
  (layer : string) (visible : bool) : object bool :=
  set layerVisibility layer visible.

(** [setAllLayersVisibility(visible)]: the [layerVisibility] it leaves. *)
Definition setAllLayersVisibility (layerVisibility : object bool)
  (visible : bool) : object bool :=
  fold_left
    (fun layerVisibility layer =>
       setLayerVisibility layerVisibility layer visible)
    layers layerVisibility.

(** [visualizeFlows(flows)]: the flows [createGhostLine] is called on, in
    the order of [this.flowLines]; the loop skips a flow whose layer is
    hidden, unless its type is ['data']. *)
Definition visualizeFlows (layerVisibility : object bool)
  (flows : list Flow.t) : list Flow.t :=
  fold_left
    (fun flowLines flow =>
       if negb (truthy_at layerVisibility (Flow.type flow))
          && negb (String.eqb (Flow.type flow) "data")
       then flowLines
       else push flowLines flow)
    flows [].

End Globe.

(* ================================================================== *)
(** ** The controller ([src/ui/controller.js])

    Of the interface controller: the layer buttons, with the class
    [active] of a button read as a boolean, the placement of the location
    popup and the energy mix it shows. *)

Module LayerButtons.

(** The controller's [activeLayers], the class [active] of the "all"
    button and of the four layer buttons, and the globe's
    [layerVisibility]. *)
Record t := {
  activeLayers : object bool;
  allBtn : bool;
  layerButtons : object bool;
  layerVisibility : object bool }.

Definition inactive (buttons : object bool) : object bool :=
  map (fun button => (fst button, false)) buttons.

(** The click handler of the "all flows" button. *)
Definition clickAll (s : t) : t :=
  {| activeLayers :=
       [ ("electricity", true); ("water", true);
         ("emissions", true); ("materials", true) ];
     allBtn := true;
     layerButtons := inactive (layerButtons s);
     layerVisibility := Globe.setAllLayersVisibility (layerVisibility s) true |}.

(** The click handler of the button of [layer]. *)
Definition clickLayer (layer : string) (s : t) : t :=
  let isNowActive := negb (truthy_at (activeLayers s) layer) in
  let activeLayers := set (activeLayers s) layer isNowActive in
  let layerButtons := set (layerButtons s) layer isNowActive in
  let layerVisibility :=
    Globe.setLayerVisibility (layerVisibility s) layer isNowActive in
  let allEnabled := forallb (fun v => v) (Object_values activeLayers) in
  if allEnabled then
    {| activeLayers := activeLayers; allBtn := true;
       layerButtons := inactive layerButtons;
       layerVisibility := layerVisibility |}
  else
    {| activeLayers := activeLayers; allBtn := false;
       layerButtons := layerButtons;
       layerVisibility := layerVisibility |}.

(** A click: on the "all" button, or on the button of a layer. *)
Inductive click := All | Layer (layer : string).

Definition handle (s : t) (c : click) : t :=
  match c with
  | All => clickAll s
  | Layer layer => clickLayer layer s
  end.

(** The four maps have the four layers as keys, in order. *)
Definition keyed (s : t) : Prop :=
  map fst (activeLayers s) = Globe.layers
  /\ map fst (layerButtons s) = Globe.layers
  /\ map fst (layerVisibility s) = Globe.layers.

(** The clicks the page can give: the layer buttons are those of the
    four layers. *)
Definition on_button (c : click) : Prop :=
  match c with
  | All => True
  | Layer layer => In layer Globe.layers
  end.

(** The state after a series of clicks. *)
Definition clicks (s : t) (cs : list click) : t := fold_left handle cs s.

(** The state of the buttons and the globe when [bindLayerButtons] has
    run, for the classes the page gives the five buttons. *)
Definition bound (allBtn : bool) (layerButtons : object bool) : t :=
  {| activeLayers :=
       [ ("electricity", true); ("water", true);
         ("emissions", true); ("materials", true) ];
     allBtn := allBtn;
     layerButtons := layerButtons;
     layerVisibility := Globe.layerVisibility |}.

Definition allEnabled (s : t) : bool :=
  forallb (fun v => v) (Object_values (activeLayers s)).

(** No layer button has the class [active]. *)
Definition none_active (s : t) : bool :=
  forallb negb (Object_values (layerButtons s)).

End LayerButtons.

(** The numbers of the popup placement: sums, differences and the
    comparison [<] (with [a > b] read as [b < a]); generic, so that the
    placement can be read over the whole numbers as well as over the
    numbers of the engine. *)
Module Pixel.
Record t (T : Type) := {
  num : Z -> T;
  add : T -> T -> T;
  sub : T -> T -> T;
  lt : T -> T -> bool }.
Arguments num {T} _ _.
Arguments add {T} _ _ _.
Arguments sub {T} _ _ _.
Arguments lt {T} _ _ _.

Definition number : t float :=
  {| num := float_of_Z; add := PrimFloat.add; sub := PrimFloat.sub;
     lt := PrimFloat.ltb |}.

(** Whole pixels: on integers below [2^53] the sums, differences and
    comparisons of [number] are exact. *)
Definition whole : t Z :=
  {| num := fun z => z; add := Z.add; sub := Z.sub; lt := Z.ltb |}.
End Pixel.

Section PopupPosition.
Context {T : Type} (P : Pixel.t T).

(** The position [showLocationPopup] gives the popup, [(left, top)], for
    a click at [(clickX, clickY)] in a window of the given inner size. *)
Definition showLocationPopup_position
  (clickX clickY innerWidth innerHeight : T) : T * T :=
  let popupWidth := Pixel.num P 320 in
  let popupHeight := Pixel.num P 400 in
  let padding := Pixel.num P 20 in
  let left := Pixel.add P clickX padding in
  let top := Pixel.sub P clickY (Pixel.num P 50) in
  let left :=
    if Pixel.lt P (Pixel.sub P innerWidth padding)
         (Pixel.add P left popupWidth)
    then Pixel.sub P (Pixel.sub P clickX popupWidth) padding else left in
  let top :=
    if Pixel.lt P (Pixel.sub P innerHeight padding)
         (Pixel.add P top popupHeight)
    then Pixel.sub P (Pixel.sub P innerHeight popupHeight) padding
    else top in
  let top := if Pixel.lt P top (Pixel.num P 80) then Pixel.num P 80 else top in
  let left := if Pixel.lt P left padding then padding else left in
  (left, top).
End PopupPosition.

(** The energy mix [showLocationPopup] shows for a datacenter:
    [(renewable, nuclear, fossil)]. *)
Definition showLocationPopup_mix (gridMix : object float)
  : float * float * float :=
  let share key := or_number (own gridMix key) 0 in
  let renewable :=
    ((share "solar" + share "wind") + share "hydro") + share "biomass" in
  let nuclear := share "nuclear" in
  let fossil := (1 - renewable) - nuclear in
  (renewable, nuclear, fossil).

(* ================================================================== *)
(** ** Further configurations used in the examples *)

(** A datacenter record that [EMISSIONS_DRIFT] does not list: Arizona
    under the identifier ['oregon']. *)
Definition unlisted : Datacenter.t :=
  {| Datacenter.id := "oregon"; Datacenter.name := Datacenter.name arizona;
     Datacenter.location := Datacenter.location arizona;
     Datacenter.coords := Datacenter.coords arizona;
     Datacenter.operator := Datacenter.operator arizona;
     Datacenter.energy := Datacenter.energy arizona;
     Datacenter.water := Datacenter.water arizona;
     Datacenter.climate := Datacenter.climate arizona |}.

(** The three calculations of an engine whose workload is the inherited
    member [key] give zero energy, water and emissions. *)
Definition zero_impact (key : string) (d : Datacenter.t) (h : Z) : bool :=
  let this :=
    {| currentCity := Null; currentWorkload := Inherited key;
       currentDatacenter := Rec d; currentHour := h |} in
  match calculateElectricity this, calculateWater this,
        calculateEmissions this with
  | Ok (Some el), Ok (Some wa), Ok (Some em) =>
      (Electricity.baseKwh el =? 0) && (Electricity.withOverhead el =? 0)
      && (WaterUse.liters wa =? 0) && (Emissions.grams em =? 0)
  | _, _, _ => false
  end.

(* ================================================================== *)
(** ** The distance: what its statements name *)




(* ================================================================== *)
(** ** Predicates of the further properties *)

(** A field of [configure]'s argument is given when its identifier is
    present and not empty. *)
Definition given (key : option string) : bool :=
  match key with
  | Some k => truthy_string k
  | None => false
  end.

(** The delta of a value [a] against itself: zero when [a] is finite and
    not zero, [NaN] when [a] is zero. *)
Definition self_delta (a delta : float) : Prop :=
  (PrimFloat.is_finite a = true -> PrimFloat.is_zero a = false ->
   PrimFloat.is_zero delta = true)
  /\ (PrimFloat.is_zero a = true -> PrimFloat.is_nan delta = true).

(** A flow is inbound (data, electricity, water, supply) and ends at
    [here], or outbound (emissions, e-waste) and starts there. *)
Definition through (here : Coords) (flow : Flow.t) : Prop :=
  ((Flow.type flow = "data" \/ Flow.type flow = "electricity"
    \/ Flow.type flow = "water"
    \/ (Flow.type flow = "materials" /\ Flow.subtype flow = Some "supply"))
   /\ Flow.to flow = here)
  \/ ((Flow.type flow = "emissions"
       \/ (Flow.type flow = "materials"
           /\ Flow.subtype flow = Some "ewaste"))
      /\ Flow.from flow = here).

(** The intensity of a flow other than an electricity flow is not above
    1 (it may be [NaN]). *)
Definition capped (flow : Flow.t) : Prop :=
  Flow.type flow = "electricity" \/ (1 <? Flow.intensity flow) = false.

(** [true] at the four layers, [false] at the four layers. *)
Definition shown (layerVisibility : object bool) : Prop :=
  forall layer, In layer Globe.layers ->
                truthy_at layerVisibility layer = true.

Definition hidden (layerVisibility : object bool) : Prop :=
  forall layer, In layer Globe.layers ->
                truthy_at layerVisibility layer = false.

(** The fossil percentage the popup prints for a grid mix, and the one
    the dashboard and the narrative print. *)
Definition popup_fossil_percent (gridMix : object float) : float :=
  let '(_, _, fossil) := showLocationPopup_mix gridMix in
  Math_round (fossil * 100).

Definition engine_fossil_percent (gridMix : object float) : float :=
  Math_round (calculateFossilPercent gridMix).

(* ================================================================== *)
(** * Properties *)

(** ** Tables and lookups *)

Lemma own_In {A} (o : object A) (key : string) (v : A) :
  own o key = Some v -> In v (Object_values o).
Proof.
  induction o as [|[k x] o IH]; cbn; [discriminate|].
  destruct (String.eqb k key).
  - intros [= ->]. now left.
  - intros Hrest. right. now apply IH.
Qed.

Lemma get_own {A} (o : object A) (key : string) (v : A) :
  own o key = Some v -> get o key = Rec v.
Proof. unfold get. now intros ->. Qed.

Lemma get_unknown {A} (o : object A) (key : string) :
  own o key = None -> get o key = prototype_lookup key.
Proof. unfold get. now intros ->. Qed.

Lemma index_Some_iff {A} (a : list A) (i : Z) :
  (exists x, index a i = Some x) <-> (0 <= i < Z.of_nat (List.length a))%Z.
Proof.
  unfold index. destruct (Z.ltb_spec i 0) as [Hneg|Hpos].
  - split; [intros [x [=]] | lia].
  - split.
    + intros [x Hx].
      assert (Hlt : (Z.to_nat i < List.length a)%nat)
        by (apply nth_error_Some; congruence).
      lia.
    + intros Hi. destruct (nth_error a (Z.to_nat i)) as [x|] eqn:Hx.
      * now exists x.
      * apply nth_error_None in Hx. lia.
Qed.

Lemma hour_In_hours (h : Z) : (0 <= h < 24)%Z -> In h hours.
Proof.
  intros Hh. unfold hours. apply in_map_iff.
  exists (Z.to_nat h). split; [lia|]. apply in_seq. lia.
Qed.


(** ** [configure] *)

(** C1, as the code has it.  An identifier that is not a key of the table
    does not leave the selection as it was: when the identifier is not
    empty, [configure] overwrites the selection with the failed lookup,
    [undefined] (or the member of [Object.prototype] of that name), and
    leaves the other selections and the hour alone; only the empty
    identifier, like an omitted one, changes nothing.  No error is raised:
    [configure] is a total function. *)
Theorem configure_unknown_identifier (this : SimulationEngine) (id : string) :
  (own CITIES id = None ->
   configure this
     {| Args.city := Some id; Args.workload := None;
        Args.datacenter := None; Args.hour := None |}
   = if truthy_string id then set_currentCity this (prototype_lookup id)
     else this)
  /\ (own WORKLOADS id = None ->
      configure this
        {| Args.city := None; Args.workload := Some id;
           Args.datacenter := None; Args.hour := None |}
      = if truthy_string id then set_currentWorkload this (prototype_lookup id)
        else this)
  /\ (own DATACENTERS id = None ->
      configure this
        {| Args.city := None; Args.workload := None;
           Args.datacenter := Some id; Args.hour := None |}
      = if truthy_string id then set_currentDatacenter this (prototype_lookup id)
        else this).
Proof.
  unfold configure, assign_if_truthy.
  cbn [Args.city Args.workload Args.datacenter Args.hour].
  repeat split; intros Hkey; rewrite (get_unknown _ _ Hkey); reflexivity.
Qed.

(** The unknown city ['atlantis'] unsets a selected city, and the unknown
    datacenter ['toString'] selects [Object.prototype.toString]. *)
Lemma configure_unknown_identifier_witness :
  currentCity
    (configure phoenix_image_arizona
       {| Args.city := Some "atlantis"; Args.workload := None;
          Args.datacenter := None; Args.hour := None |}) = Undefined
  /\ currentDatacenter
       (configure phoenix_image_arizona
          {| Args.city := None; Args.workload := None;
             Args.datacenter := Some "toString"; Args.hour := None |})
     = Inherited "toString".
Proof.
  split.
  - rewrite (proj1 (configure_unknown_identifier phoenix_image_arizona "atlantis")
               eq_refl).
    reflexivity.
  - rewrite (proj2 (proj2 (configure_unknown_identifier phoenix_image_arizona
                             "toString")) eq_refl).
    reflexivity.
Defined.

(** C1 as the specification states it fails: ['atlantis'] is not a city of
    the table, and configuring it changes the selected city. *)
Lemma configure_unknown_city_changes_selection :
  own CITIES "atlantis" = None
  /\ currentCity
       (configure phoenix_image_arizona
          {| Args.city := Some "atlantis"; Args.workload := None;
             Args.datacenter := None; Args.hour := None |})
     <> currentCity phoenix_image_arizona.
Proof. split; [reflexivity | discriminate]. Qed.

(** C8, as the code has it.  [configure] stores the hour it is given,
    whatever it is: nothing clamps or validates it.  Each of the three
    modifier arrays has an entry at the stored hour exactly when the hour
    lies in [[0, 23]]; at any other hour the read is [undefined]. *)
Theorem configure_stores_hour_unchecked
  (this : SimulationEngine) (args : Args.t) (h : Z) :
  Args.hour args = Some h ->
  currentHour (configure this args) = h
  /\ ((exists m, index TIME_MODIFIERS.waterUsageByHour h = Some m)
      <-> (0 <= h < 24)%Z)
  /\ ((exists m, index TIME_MODIFIERS.carbonIntensityByHour h = Some m)
      <-> (0 <= h < 24)%Z)
  /\ ((exists m, index TIME_MODIFIERS.demandByHour h = Some m)
      <-> (0 <= h < 24)%Z).
Proof.
  intros Hh. split; [|split; [|split]].
  - unfold configure. rewrite Hh. reflexivity.
  - exact (index_Some_iff TIME_MODIFIERS.waterUsageByHour h).
  - exact (index_Some_iff TIME_MODIFIERS.carbonIntensityByHour h).
  - exact (index_Some_iff TIME_MODIFIERS.demandByHour h).
Qed.

Lemma configure_stores_hour_unchecked_witness :
  currentHour
    (configure constructor
       {| Args.city := None; Args.workload := None;
          Args.datacenter := None; Args.hour := Some 24%Z |}) = 24%Z
  /\ ~ (exists m, index TIME_MODIFIERS.demandByHour 24 = Some m).
Proof.
  pose proof (configure_stores_hour_unchecked constructor
                {| Args.city := None; Args.workload := None;
                   Args.datacenter := None; Args.hour := Some 24%Z |}
                24%Z eq_refl) as (Hstored & _ & _ & Hdemand).
  split; [exact Hstored|].
  intros Hm. apply Hdemand in Hm. lia.
Defined.

(** C8 as the specification states it fails: hour 24 is stored as given,
    and the three arrays have no entry there. *)
Lemma configure_hour_24_out_of_range :
  currentHour
    (configure constructor
       {| Args.city := None; Args.workload := None;
          Args.datacenter := None; Args.hour := Some 24%Z |}) = 24%Z
  /\ index TIME_MODIFIERS.waterUsageByHour 24 = None
  /\ index TIME_MODIFIERS.carbonIntensityByHour 24 = None
  /\ index TIME_MODIFIERS.demandByHour 24 = None.
Proof. repeat split. Qed.

(** ** The three calculations *)

(** None of the three calculations reads the selected city. *)
Lemma calculations_ignore_city (this : SimulationEngine) (c : slot City.t) :
  calculateElectricity (set_currentCity this c) = calculateElectricity this
  /\ calculateWater (set_currentCity this c) = calculateWater this
  /\ calculateEmissions (set_currentCity this c) = calculateEmissions this.
Proof. destruct this. repeat split. Qed.

Lemma calculateElectricity_unset (this : SimulationEngine) :
  truthy (currentWorkload this) = false
  \/ truthy (currentDatacenter this) = false ->
  calculateElectricity this = Ok None.
Proof.
  unfold calculateElectricity. intros [-> | ->]; [reflexivity|].
  now rewrite orb_true_r.
Qed.

Lemma calculateWater_unset (this : SimulationEngine) :
  truthy (currentWorkload this) = false
  \/ truthy (currentDatacenter this) = false ->
  calculateWater this = Ok None.
Proof.
  unfold calculateWater. intros [-> | ->]; [now rewrite orb_true_r|].
  reflexivity.
Qed.

Lemma calculateEmissions_unset (this : SimulationEngine) :
  truthy (currentDatacenter this) = false ->
  calculateEmissions this = Ok None.
Proof. unfold calculateEmissions. now intros ->. Qed.

(** With a datacenter and no workload [calculateEmissions] does not return
    [null]: it throws. *)
Lemma calculateEmissions_without_workload
  (this : SimulationEngine) (d : Datacenter.t) :
  currentDatacenter this = Rec d ->
  truthy (currentWorkload this) = false ->
  calculateEmissions this = Throw TypeError.
Proof.
  intros Hd Hw. unfold calculateEmissions.
  rewrite (calculateElectricity_unset this (or_introl Hw)), Hd.
  reflexivity.
Qed.

Lemma calculateElectricity_configured
  (this : SimulationEngine) (w : Workload.t) (d : Datacenter.t) :
  currentWorkload this = Rec w ->
  currentDatacenter this = Rec d ->
  exists r,
    calculateElectricity this = Ok (Some r)
    /\ baseKwh_of (Rec w) = Ok (Electricity.baseKwh r)
    /\ Electricity.withOverhead r
       = ((Electricity.baseKwh r * Energy.pue (Datacenter.energy d))
          * Climate.heatPenalty (Datacenter.climate d))
         * to_number (index TIME_MODIFIERS.demandByHour (currentHour this))
    /\ Electricity.sources r = Energy.sources (Datacenter.energy d)
    /\ Electricity.fossilPercent r
       = calculateFossilPercent (Energy.gridMix (Datacenter.energy d)).
Proof.
  intros Hw Hd. unfold calculateElectricity. rewrite Hw, Hd.
  cbn [truthy negb orb record_of baseKwh_of bind].
  eexists. split; [reflexivity|]. cbn. repeat split.
Qed.

Lemma calculateWater_configured
  (this : SimulationEngine) (w : Workload.t) (d : Datacenter.t) :
  currentWorkload this = Rec w ->
  currentDatacenter this = Rec d ->
  exists el r,
    calculateElectricity this = Ok (Some el)
    /\ calculateWater this = Ok (Some r)
    /\ WaterUse.liters r
       = (Electricity.withOverhead el * Water.wue (Datacenter.water d))
         * to_number (index TIME_MODIFIERS.waterUsageByHour (currentHour this))
    /\ WaterUse.sourceCoords r = Water.sourceCoords (Datacenter.water d).
Proof.
  intros Hw Hd.
  destruct (calculateElectricity_configured this w d Hw Hd) as (el & Hel & _).
  unfold calculateWater. rewrite Hel, Hw, Hd.
  cbn [truthy negb orb record_of bind].
  exists el. eexists. split; [reflexivity|]. split; [reflexivity|].
  cbn. split; reflexivity.
Qed.

Lemma calculateEmissions_configured
  (this : SimulationEngine) (w : Workload.t) (d : Datacenter.t) :
  currentWorkload this = Rec w ->
  currentDatacenter this = Rec d ->
  exists el r,
    calculateElectricity this = Ok (Some el)
    /\ calculateEmissions this = Ok (Some r)
    /\ Emissions.grams r
       = Electricity.withOverhead el
         * (Energy.carbonIntensity (Datacenter.energy d)
            * to_number (index TIME_MODIFIERS.carbonIntensityByHour
                           (currentHour this)))
    /\ Emissions.drift r = get EMISSIONS_DRIFT (Datacenter.id d).
Proof.
  intros Hw Hd.
  destruct (calculateElectricity_configured this w d Hw Hd) as (el & Hel & _).
  unfold calculateEmissions. rewrite Hel, Hd.
  cbn [truthy negb record_of deref bind].
  exists el. eexists. split; [reflexivity|]. split; [reflexivity|].
  cbn. split; reflexivity.
Qed.

(** C2, at the input where the code breaks it: a datacenter is selected
    and no workload.  [calculateElectricity] and [calculateWater] return
    [null]; [calculateEmissions] checks the datacenter only and throws a
    [TypeError] on [electricity.withOverhead]. *)
Theorem calculateEmissions_throws_without_workload :
  currentDatacenter only_datacenter = Rec arizona
  /\ currentWorkload only_datacenter = Null
  /\ calculateElectricity only_datacenter = Ok None
  /\ calculateWater only_datacenter = Ok None
  /\ calculateEmissions only_datacenter = Throw TypeError.
Proof.
  assert (Hd : currentDatacenter only_datacenter = Rec arizona) by reflexivity.
  assert (Hw : truthy (currentWorkload only_datacenter) = false)
    by reflexivity.
  split; [exact Hd|]. split; [reflexivity|]. split; [|split].
  - apply calculateElectricity_unset. now left.
  - apply calculateWater_unset. now left.
  - exact (calculateEmissions_without_workload _ _ Hd Hw).
Qed.

(** The [switch] on the workload identifier. *)
Lemma baseKwh_dispatch (w : Workload.t) (baseKwh : float) :
  baseKwh_of (Rec w) = Ok baseKwh ->
  let s := Workload.perSession w in
  (Workload.id w = "chatbot" ->
   baseKwh = to_number (PerSession.queries s)
             * to_number (PerSession.kwhPerQuery s))
  /\ (Workload.id w = "image" ->
      baseKwh = to_number (PerSession.images s)
                * to_number (PerSession.kwhPerImage s))
  /\ (Workload.id w = "traffic" \/ Workload.id w = "biometric" ->
      baseKwh = to_number (PerSession.kwhPerHour s)).
Proof.
  cbn [baseKwh_of]. intros [= <-]. cbv zeta.
  repeat split.
  - intros ->. reflexivity.
  - intros ->. reflexivity.
  - intros [-> | ->]; reflexivity.
Qed.

(** C3.  With a workload and a datacenter selected and an hour in 0..23,
    [calculateElectricity] returns [baseKwh] by the dispatch on the workload
    identifier (chatbot: queries x kwhPerQuery; image: images x kwhPerImage;
    traffic and biometric: kwhPerHour) and
    [withOverhead = ((baseKwh * PUE) * heatPenalty) * demandByHour[hour]].
    For image/arizona/hour 15, [baseKwh] is the binary64 product
    [10 * 0.029] (0.29 up to rounding), [withOverhead] is
    [0.29 * 1.25 * 1.4 * 1.2] (0.609 up to rounding) and [fossilPercent]
    is [(0.35 + 0.10) * 100] (45 up to rounding). *)
Theorem calculateElectricity_dispatch_and_overhead :
  (forall (this : SimulationEngine) (w : Workload.t) (d : Datacenter.t),
      currentWorkload this = Rec w ->
      currentDatacenter this = Rec d ->
      (0 <= currentHour this < 24)%Z ->
      exists r m,
        calculateElectricity this = Ok (Some r)
        /\ index TIME_MODIFIERS.demandByHour (currentHour this) = Some m
        /\ (Workload.id w = "chatbot" ->
            Electricity.baseKwh r
            = to_number (PerSession.queries (Workload.perSession w))
              * to_number (PerSession.kwhPerQuery (Workload.perSession w)))
        /\ (Workload.id w = "image" ->
            Electricity.baseKwh r
            = to_number (PerSession.images (Workload.perSession w))
              * to_number (PerSession.kwhPerImage (Workload.perSession w)))
        /\ (Workload.id w = "traffic" \/ Workload.id w = "biometric" ->
            Electricity.baseKwh r
            = to_number (PerSession.kwhPerHour (Workload.perSession w)))
        /\ Electricity.withOverhead r
           = ((Electricity.baseKwh r * Energy.pue (Datacenter.energy d))
              * Climate.heatPenalty (Datacenter.climate d))
             * m)
  /\ exists r,
      calculateElectricity phoenix_image_arizona = Ok (Some r)
      /\ Electricity.baseKwh r = 10 * 0.029
      /\ close_to (Electricity.baseKwh r) (29 # 100) (1 # 10 ^ 15)
      /\ Electricity.withOverhead r = (((10 * 0.029) * 1.25) * 1.4) * 1.2
      /\ close_to (Electricity.withOverhead r) (609 # 1000) (1 # 10 ^ 15)
      /\ Electricity.fossilPercent r = ((0 + 0.35) + 0.10) * 100
      /\ close_to (Electricity.fossilPercent r) 45 (1 # 10 ^ 13).
Proof.
  split.
  - intros this w d Hw Hd Hh.
    destruct (calculateElectricity_configured this w d Hw Hd)
      as (r & Hr & Hbase & Hover & _).
    destruct (proj2 (index_Some_iff TIME_MODIFIERS.demandByHour
                       (currentHour this)) Hh) as [m Hm].
    exists r, m. split; [exact Hr|]. split; [exact Hm|].
    destruct (baseKwh_dispatch w _ Hbase) as (Hchat & Himage & Hhourly).
    repeat (split; [assumption|]).
    rewrite Hover, Hm. reflexivity.
  - eexists. split; [reflexivity|].
    repeat match goal with
           | |- _ /\ _ => split
           | |- close_to _ _ _ =>
               eexists; split; [vm_compute; reflexivity | vm_compute; discriminate]
           | |- _ = _ => vm_compute; reflexivity
           end.
Qed.

(** The chatbot in Ireland at 09:00: 25 queries of 0.0029 kWh, with PUE
    1.15, heat penalty 1.0 and demand modifier 1.1. *)
Lemma calculateElectricity_dispatch_and_overhead_witness :
  exists r,
    calculateElectricity
      (configure constructor
         {| Args.city := None; Args.workload := Some "chatbot";
            Args.datacenter := Some "ireland"; Args.hour := Some 9%Z |})
    = Ok (Some r)
    /\ Electricity.baseKwh r = 25 * 0.0029
    /\ Electricity.withOverhead r = (((25 * 0.0029) * 1.15) * 1.0) * 1.1.
Proof.
  set (this := configure constructor _).
  destruct (proj1 calculateElectricity_dispatch_and_overhead this
              _ ireland eq_refl eq_refl ltac:(cbn; lia))
    as (r & m & Hr & Hm & Hchat & _ & _ & Hover).
  exists r. split; [exact Hr|].
  injection Hm as <-.
  split; [exact (Hchat eq_refl)|].
  rewrite Hover, (Hchat eq_refl). reflexivity.
Defined.

(** Finland is the only datacenter of the table whose WUE is zero. *)
Lemma zero_wue_is_finland (key : string) (d : Datacenter.t) :
  own DATACENTERS key = Some d ->
  (Water.wue (Datacenter.water d) =? 0) = true ->
  d = finland.
Proof.
  intros Hd Hwue. apply own_In in Hd.
  destruct Hd as [<- | [<- | [<- | [<- | []]]]];
    solve [reflexivity | vm_compute in Hwue; discriminate].
Qed.

Lemma finland_liters_vanish :
  forallb (fun w => forallb (liters_vanish w finland) hours)
    (Object_values WORKLOADS) = true.
Proof. vm_compute. reflexivity. Qed.

(** C7.  With a workload and a datacenter selected and an hour in 0..23,
    [calculateWater] returns
    [liters = (withOverhead * WUE) * waterUsageByHour[hour]], where
    [withOverhead] is what [calculateElectricity] returns; and for every
    workload of the table, every datacenter of the table whose WUE is zero
    (Finland) and every hour in 0..23, [liters == 0]. *)
Theorem calculateWater_liters :
  (forall (this : SimulationEngine) (w : Workload.t) (d : Datacenter.t),
      currentWorkload this = Rec w ->
      currentDatacenter this = Rec d ->
      (0 <= currentHour this < 24)%Z ->
      exists el r m,
        calculateElectricity this = Ok (Some el)
        /\ index TIME_MODIFIERS.waterUsageByHour (currentHour this) = Some m
        /\ calculateWater this = Ok (Some r)
        /\ WaterUse.liters r
           = (Electricity.withOverhead el * Water.wue (Datacenter.water d))
             * m)
  /\ (forall (this : SimulationEngine) (kw kd : string)
        (w : Workload.t) (d : Datacenter.t),
        own WORKLOADS kw = Some w ->
        own DATACENTERS kd = Some d ->
        currentWorkload this = Rec w ->
        currentDatacenter this = Rec d ->
        (0 <= currentHour this < 24)%Z ->
        (Water.wue (Datacenter.water d) =? 0) = true ->
        exists r,
          calculateWater this = Ok (Some r)
          /\ (WaterUse.liters r =? 0) = true).
Proof.
  split.
  - intros this w d Hw Hd Hh.
    destruct (calculateWater_configured this w d Hw Hd)
      as (el & r & Hel & Hr & Hliters & _).
    destruct (proj2 (index_Some_iff TIME_MODIFIERS.waterUsageByHour
                       (currentHour this)) Hh) as [m Hm].
    exists el, r, m. repeat (split; [assumption|]).
    rewrite Hliters, Hm. reflexivity.
  - intros this kw kd w d Hkw Hkd Hw Hd Hh Hwue.
    rewrite (zero_wue_is_finland kd d Hkd Hwue) in Hd.
    pose proof finland_liters_vanish as Hall.
    rewrite forallb_forall in Hall.
    specialize (Hall w (own_In _ _ _ Hkw)).
    rewrite forallb_forall in Hall.
    specialize (Hall _ (hour_In_hours _ Hh)).
    unfold liters_vanish in Hall.
    replace (engine_of Null w finland (currentHour this))
      with (set_currentCity this Null) in Hall
      by (unfold set_currentCity, engine_of; now rewrite Hw, Hd).
    rewrite (proj1 (proj2 (calculations_ignore_city this Null))) in Hall.
    destruct (calculateWater this) as [[r|]|]; try discriminate.
    now exists r.
Qed.

(** Traffic AI routed to Finland at 13:00 draws no water; the image
    generator in Arizona at 15:00 draws [0.609 * 1.8 * 1.5] litres. *)
Lemma calculateWater_liters_witness :
  (exists r,
      calculateWater
        (configure constructor
           {| Args.city := None; Args.workload := Some "traffic";
              Args.datacenter := Some "finland"; Args.hour := Some 13%Z |})
      = Ok (Some r)
      /\ (WaterUse.liters r =? 0) = true)
  /\ (exists r,
         calculateWater phoenix_image_arizona = Ok (Some r)
         /\ WaterUse.liters r
            = (((((10 * 0.029) * 1.25) * 1.4) * 1.2) * 1.8) * 1.5).
Proof.
  split.
  - eapply (proj2 calculateWater_liters _ "traffic" "finland");
      solve [reflexivity | cbn; lia].
  - destruct (proj1 calculateWater_liters phoenix_image_arizona _ arizona
                eq_refl eq_refl ltac:(cbn; lia))
      as (el & r & m & Hel & Hm & Hr & Hliters).
    exists r. split; [exact Hr|].
    injection Hm as <-. injection Hel as <-. exact Hliters.
Defined.

(** ** [generateFlows] *)

Lemma for_of_push {A B} (xs : list A) (f : A -> B) (flows : list B) :
  for_of xs (fun flows x => Ok (push flows (f x))) flows
  = Ok (flows ++ map f xs)%list.
Proof.
  revert flows. induction xs as [|x xs IH]; intros flows; cbn.
  - now rewrite app_nil_r.
  - rewrite IH. unfold push. now rewrite <- app_assoc.
Qed.

Lemma for_of_records {A B} (ms : list (string * A)) (f : A -> B)
  (flows : list B) :
  for_of (map (fun km => (fst km, Rec (snd km))) ms)
    (fun flows entry =>
       material <- record_of (snd entry) ;; Ok (push flows (f material)))
    flows
  = Ok (flows ++ map f (map snd ms))%list.
Proof.
  revert flows. induction ms as [|[k m] ms IH]; intros flows; cbn.
  - now rewrite app_nil_r.
  - rewrite IH. unfold push. now rewrite <- app_assoc.
Qed.

(** [getMaterials] finds the four curated materials, in key order. *)
Lemma getMaterials_curated :
  exists ms,
    Materials.materials getMaterials
    = map (fun km => (fst km, Rec (snd km))) ms
    /\ map fst ms = ["cobalt"; "lithium"; "rareEarth"; "silicon"]
    /\ map snd ms = FlowSpec.curated.
Proof.
  exists (combine ["cobalt"; "lithium"; "rareEarth"; "silicon"]
            FlowSpec.curated).
  repeat split.
Qed.

(** The flow list of the code, group by group. *)
Lemma generateFlows_groups
  (this : SimulationEngine) (c : City.t) (d : Datacenter.t)
  (el : Electricity.t) (wa : WaterUse.t) (em : Emissions.t) (dr : Drift.t) :
  currentCity this = Rec c ->
  currentDatacenter this = Rec d ->
  Electricity.sources el = Energy.sources (Datacenter.energy d) ->
  Emissions.drift em = Rec dr ->
  exists flows,
    generateFlows this el wa em getMaterials = Ok flows
    /\ map FlowSpec.of_flow flows
       = FlowSpec.expected_with (FlowSpec.share_or d) c d wa
           (Emissions.grams em) (Drift.destinations dr).
Proof.
  intros Hc Hd Hsources Hdrift.
  destruct getMaterials_curated as (ms & Hms & _ & Hcurated).
  unfold generateFlows.
  rewrite Hc, Hd, Hsources, Hdrift, Hms.
  cbn [record_of bind truthy].
  rewrite for_of_push. cbn [bind].
  rewrite for_of_push. cbn [bind].
  rewrite for_of_records. cbn [bind].
  rewrite for_of_push.
  eexists. split; [reflexivity|].
  unfold FlowSpec.expected_with, push, slice0. rewrite Hcurated.
  destruct (0 <? WaterUse.liters wa);
    rewrite ?map_app, ?map_map, <- ?app_assoc; reflexivity.
Qed.



(** ** [runSimulation] *)

Lemma ewaste_first :
  exists e, index (Materials.ewasteDestinations getMaterials) 0 = Some e.
Proof. eexists. reflexivity. Qed.

(** Every datacenter of the table has a drift entry with a first
    destination. *)
Lemma drift_table (key : string) (d : Datacenter.t) :
  own DATACENTERS key = Some d ->
  exists dr first,
    get EMISSIONS_DRIFT (Datacenter.id d) = Rec dr
    /\ index (Drift.destinations dr) 0 = Some first.
Proof.
  intros Hd. apply own_In in Hd.
  destruct Hd as [<- | [<- | [<- | [<- | []]]]];
    do 2 eexists; split; reflexivity.
Qed.

Section Runs.
Context (H : Host).

(** A simulation with a city, a workload and a datacenter whose drift
    entry has a destination returns, with the results of the three
    calculations and the flows of [generateFlows]. *)
Lemma runSimulation_configured
  (this : SimulationEngine) (c : City.t) (w : Workload.t) (d : Datacenter.t)
  (dr : Drift.t) (first : Destination.t) :
  currentCity this = Rec c ->
  currentWorkload this = Rec w ->
  currentDatacenter this = Rec d ->
  get EMISSIONS_DRIFT (Datacenter.id d) = Rec dr ->
  index (Drift.destinations dr) 0 = Some first ->
  exists r,
    runSimulation H this = Ok r
    /\ Simulation.datacenter r = Rec d
    /\ calculateElectricity this = Ok (Some (Simulation.electricity r))
    /\ calculateWater this = Ok (Some (Simulation.water r))
    /\ calculateEmissions this = Ok (Some (Simulation.emissions r))
    /\ map FlowSpec.of_flow (Simulation.flows r)
       = FlowSpec.expected_with (FlowSpec.share_or d) c d (Simulation.water r)
           (Emissions.grams (Simulation.emissions r))
           (Drift.destinations dr).
Proof.
  intros Hc Hw Hd Hdr Hfirst.
  destruct (calculateElectricity_configured this w d Hw Hd)
    as (el & Hel & _ & _ & Hsources & _).
  destruct (calculateWater_configured this w d Hw Hd)
    as (_ & wa & _ & Hwa & _).
  destruct (calculateEmissions_configured this w d Hw Hd)
    as (_ & em & _ & Hem & _ & Hdrift).
  rewrite Hdr in Hdrift.
  destruct (generateFlows_groups this c d el wa em dr Hc Hd Hsources Hdrift)
    as (flows & Hflows & Hexpected).
  destruct ewaste_first as [e0 He0].
  unfold runSimulation, NARRATIVES_standard.
  rewrite Hc, Hw, Hd, Hel, Hwa, Hem, He0.
  cbn [truthy negb orb record_of deref bind NarrativeData.emissionsDrift].
  rewrite Hdrift. cbn [record_of bind]. rewrite Hfirst. cbn [deref bind].
  rewrite Hflows. cbn [bind].
  eexists. split; [reflexivity|]. cbn [Simulation.electricity
    Simulation.water Simulation.emissions Simulation.flows
    Simulation.datacenter].
  repeat (split; [reflexivity|]). exact Hexpected.
Qed.

(** [runSimulation] throws the configuration error exactly when one of
    the three selections is falsy. *)
Lemma runSimulation_unconfigured (this : SimulationEngine) :
  truthy (currentCity this) = false
  \/ truthy (currentWorkload this) = false
  \/ truthy (currentDatacenter this) = false ->
  runSimulation H this
  = Throw (ConfigurationError "Simulation not fully configured").
Proof.
  unfold runSimulation. intros [-> | [-> | ->]]; cbn [negb orb].
  - reflexivity.
  - now rewrite orb_true_r.
  - now rewrite orb_true_r.
Qed.

End Runs.

(** ** What can be thrown *)

Lemma Ok_only_TypeError {A} (a : A) : only_TypeError (Ok a).
Proof. intros e [=]. Qed.

Lemma Throw_only_TypeError {A} : only_TypeError (@Throw A TypeError).
Proof. now intros e [= <-]. Qed.

Lemma bind_only_TypeError {A B} (r : result A) (k : A -> result B) :
  only_TypeError r ->
  (forall a, only_TypeError (k a)) ->
  only_TypeError (bind r k).
Proof.
  intros Hr Hk e. destruct r as [a|e']; cbn.
  - apply Hk.
  - intros [= <-]. now apply Hr.
Qed.

Lemma record_of_only_TypeError {A} (s : slot A) :
  only_TypeError (record_of s).
Proof.
  destruct s; cbn; auto using Ok_only_TypeError, Throw_only_TypeError.
Qed.

Lemma deref_only_TypeError {A} (v : option A) : only_TypeError (deref v).
Proof.
  destruct v; cbn; auto using Ok_only_TypeError, Throw_only_TypeError.
Qed.

Lemma for_of_only_TypeError {A B} (xs : list A)
  (body : list B -> A -> result (list B)) (flows : list B) :
  (forall flows x, only_TypeError (body flows x)) ->
  only_TypeError (for_of xs body flows).
Proof.
  intros Hbody. revert flows.
  induction xs as [|x xs IH]; intros flows; cbn.
  - apply Ok_only_TypeError.
  - apply bind_only_TypeError; [apply Hbody | exact IH].
Qed.

Create HintDb throws.
#[local] Hint Resolve Ok_only_TypeError Throw_only_TypeError
  record_of_only_TypeError deref_only_TypeError : throws.

Ltac only_type_errors :=
  repeat first
    [ progress auto with throws
    | apply bind_only_TypeError; [|intros ?]
    | apply for_of_only_TypeError; intros ? ?
    | match goal with
      | |- only_TypeError (if ?b then _ else _) => destruct b
      | |- only_TypeError (match ?s with _ => _ end) => destruct s
      end ].

Lemma calculateElectricity_only_TypeError (this : SimulationEngine) :
  only_TypeError (calculateElectricity this).
Proof. unfold calculateElectricity, baseKwh_of. only_type_errors. Qed.

Lemma calculateWater_only_TypeError (this : SimulationEngine) :
  only_TypeError (calculateWater this).
Proof.
  unfold calculateWater.
  destruct (negb _ || negb _); [apply Ok_only_TypeError|].
  apply bind_only_TypeError; [apply calculateElectricity_only_TypeError|].
  intros [el|]; only_type_errors.
Qed.

Lemma calculateEmissions_only_TypeError (this : SimulationEngine) :
  only_TypeError (calculateEmissions this).
Proof.
  unfold calculateEmissions.
  destruct (negb _); [apply Ok_only_TypeError|].
  apply bind_only_TypeError; [apply calculateElectricity_only_TypeError|].
  intros el. only_type_errors.
Qed.

Lemma generateFlows_only_TypeError (this : SimulationEngine)
  (el : Electricity.t) (wa : WaterUse.t) (em : Emissions.t)
  (ms : Materials.t) :
  only_TypeError (generateFlows this el wa em ms).
Proof. unfold generateFlows. only_type_errors. Qed.

Lemma NARRATIVES_standard_only_TypeError (H : Host)
  (data : NarrativeData.t) :
  only_TypeError (NARRATIVES_standard H data).
Proof. unfold NARRATIVES_standard. only_type_errors. Qed.

(** [runSimulation] throws the configuration error only when one of the
    three selections is falsy: every other throw is a [TypeError]. *)
Lemma runSimulation_ConfigurationError (H : Host) (this : SimulationEngine)
  (message : string) :
  runSimulation H this = Throw (ConfigurationError message) ->
  truthy (currentCity this) = false
  \/ truthy (currentWorkload this) = false
  \/ truthy (currentDatacenter this) = false.
Proof.
  unfold runSimulation.
  destruct (truthy (currentCity this)); [|now left].
  destruct (truthy (currentWorkload this)); [|now right; left].
  destruct (truthy (currentDatacenter this)); [|now right; right].
  cbn [negb orb]. intros Hthrow. exfalso.
  enough (Honly : only_TypeError
                    (@Throw Simulation.t (ConfigurationError message)))
    by (specialize (Honly _ eq_refl); discriminate).
  rewrite <- Hthrow.
  apply bind_only_TypeError; [auto with throws | intros c].
  apply bind_only_TypeError; [auto with throws | intros d].
  apply bind_only_TypeError;
    [apply calculateElectricity_only_TypeError | intros el].
  apply bind_only_TypeError; [apply calculateWater_only_TypeError | intros wa].
  apply bind_only_TypeError;
    [apply calculateEmissions_only_TypeError | intros em].
  do 4 (apply bind_only_TypeError; [auto with throws | intros ?]).
  apply bind_only_TypeError;
    [apply NARRATIVES_standard_only_TypeError | intros text].
  apply bind_only_TypeError;
    [apply generateFlows_only_TypeError | intros flows].
  apply Ok_only_TypeError.
Qed.

(** ** The flows of a simulation *)





(** ** [compareDatacenters] *)

Lemma set_currentDatacenter_twice (this : SimulationEngine)
  (a b : slot Datacenter.t) :
  set_currentDatacenter (set_currentDatacenter this a) b
  = set_currentDatacenter this b.
Proof. reflexivity. Qed.

Lemma set_currentDatacenter_same (this : SimulationEngine) :
  set_currentDatacenter this (currentDatacenter this) = this.
Proof. now destruct this. Qed.

(** C5.  With a city and a workload selected and two identifiers of the
    datacenter table, [compareDatacenters] returns, and the engine it
    leaves is the engine it was called on: the selected datacenter (and
    every other field) is what it was before the call. *)
Theorem compareDatacenters_restores
  (H : Host) (this : SimulationEngine) (c : City.t) (w : Workload.t)
  (idA idB : string) (dA dB : Datacenter.t) :
  currentCity this = Rec c ->
  currentWorkload this = Rec w ->
  own DATACENTERS idA = Some dA ->
  own DATACENTERS idB = Some dB ->
  exists compared,
    compareDatacenters H this idA idB = (this, Ok compared)
    /\ currentDatacenter (fst (compareDatacenters H this idA idB))
       = currentDatacenter this
    /\ Simulation.datacenter (Compared.dc1 compared) = Rec dA
    /\ Simulation.datacenter (Compared.dc2 compared) = Rec dB.
Proof.
  intros Hc Hw HA HB.
  destruct (drift_table idA dA HA) as (drA & firstA & HdrA & HfirstA).
  destruct (drift_table idB dB HB) as (drB & firstB & HdrB & HfirstB).
  set (first := set_currentDatacenter this (Rec dA)).
  set (second := set_currentDatacenter first (Rec dB)).
  destruct (runSimulation_configured H first c w dA drA firstA
              Hc Hw eq_refl HdrA HfirstA) as (r1 & Hr1 & Hd1 & _).
  destruct (runSimulation_configured H second c w dB drB firstB
              Hc Hw eq_refl HdrB HfirstB) as (r2 & Hr2 & Hd2 & _).
  assert (Hcompare :
            exists compared,
              compareDatacenters H this idA idB = (this, Ok compared)
              /\ Compared.dc1 compared = r1 /\ Compared.dc2 compared = r2).
  { unfold compareDatacenters.
    rewrite (get_own _ _ _ HA), (get_own _ _ _ HB).
    fold first. rewrite Hr1. fold second. rewrite Hr2.
    unfold second, first.
    rewrite !set_currentDatacenter_twice, set_currentDatacenter_same.
    eexists. split; [reflexivity|]. split; reflexivity. }
  destruct Hcompare as (compared & Hcompared & H1 & H2).
  exists compared. rewrite Hcompared, H1, H2. repeat split; assumption.
Qed.

(** Phoenix, image generation, Arizona selected: comparing Arizona with
    Finland returns and leaves Arizona selected. *)
Lemma compareDatacenters_restores_witness :
  exists compared,
    compareDatacenters SeriesHost.host phoenix_image_arizona
      "arizona" "finland"
    = (phoenix_image_arizona, Ok compared)
    /\ currentDatacenter
         (fst (compareDatacenters SeriesHost.host phoenix_image_arizona
                 "arizona" "finland"))
       = Rec arizona.
Proof.
  destruct (compareDatacenters_restores SeriesHost.host phoenix_image_arizona
              _ _ "arizona" "finland" arizona finland
              eq_refl eq_refl eq_refl eq_refl)
    as (compared & Hcompared & Hrestored & _).
  exists compared. split; [exact Hcompared | exact Hrestored].
Defined.

(** C10.  When the first internal [runSimulation] throws,
    [compareDatacenters] throws the same error and leaves the engine with
    the looked-up value of the first identifier as its datacenter; when
    the first returns and the second throws, it leaves the looked-up value
    of the second.  The restoring assignment is not reached: the selected
    datacenter is whatever the lookup gave, [undefined] included. *)
Theorem compareDatacenters_throw_skips_restore
  (H : Host) (this : SimulationEngine) (idA idB : string) (e : error) :
  let first := set_currentDatacenter this (get DATACENTERS idA) in
  let second := set_currentDatacenter this (get DATACENTERS idB) in
  (runSimulation H first = Throw e ->
   compareDatacenters H this idA idB = (first, Throw e)
   /\ currentDatacenter (fst (compareDatacenters H this idA idB))
      = get DATACENTERS idA)
  /\ ((exists r, runSimulation H first = Ok r) ->
      runSimulation H second = Throw e ->
      compareDatacenters H this idA idB = (second, Throw e)
      /\ currentDatacenter (fst (compareDatacenters H this idA idB))
         = get DATACENTERS idB).
Proof.
  intros first second. subst first second.
  unfold compareDatacenters. cbv zeta.
  rewrite set_currentDatacenter_twice.
  split.
  - intros ->. split; reflexivity.
  - intros [r ->] ->. split; reflexivity.
Qed.

(** With no city selected the first run throws and Finland stays
    selected in place of Arizona; with a city selected and an unknown
    second identifier the second run throws and the datacenter stays
    [undefined]. *)
Lemma compareDatacenters_throw_skips_restore_witness :
  (currentDatacenter no_city = Rec arizona
   /\ exists e,
       snd (compareDatacenters SeriesHost.host no_city "finland" "ireland")
       = Throw e
       /\ currentDatacenter
            (fst (compareDatacenters SeriesHost.host no_city
                    "finland" "ireland"))
          = Rec finland)
  /\ (currentDatacenter phoenix_image_arizona = Rec arizona
      /\ exists e,
          snd (compareDatacenters SeriesHost.host phoenix_image_arizona
                 "finland" "atlantis")
          = Throw e
          /\ currentDatacenter
               (fst (compareDatacenters SeriesHost.host phoenix_image_arizona
                       "finland" "atlantis"))
             = Undefined).
Proof.
  split; (split; [reflexivity|]);
    exists (ConfigurationError "Simulation not fully configured").
  - destruct (proj1 (compareDatacenters_throw_skips_restore SeriesHost.host
                       no_city "finland" "ireland"
                       (ConfigurationError "Simulation not fully configured")))
      as [Hthrow Hleft].
    + apply runSimulation_unconfigured. left. reflexivity.
    + rewrite Hthrow. split; reflexivity.
  - destruct (proj2 (compareDatacenters_throw_skips_restore SeriesHost.host
                       phoenix_image_arizona "finland" "atlantis"
                       (ConfigurationError "Simulation not fully configured")))
      as [Hthrow Hleft].
    + vm_compute. eexists. reflexivity.
    + apply runSimulation_unconfigured. right. right. reflexivity.
    + rewrite Hthrow. split; reflexivity.
Defined.

(** ** Division by a zero metric *)

Lemma positive_float (a : float) :
  (0 <? a) = true ->
  Prim2SF a = S754_infinity false
  \/ exists m e, Prim2SF a = S754_finite false m e.
Proof.
  rewrite ltb_spec. change (Prim2SF 0) with (S754_zero false).
  destruct (Prim2SF a) as [s|s| |s m e]; cbn; try discriminate;
    destruct s; try discriminate; eauto.
Qed.

Lemma zero_float (a : float) :
  PrimFloat.is_zero a = true -> exists s, Prim2SF a = S754_zero s.
Proof.
  unfold PrimFloat.is_zero. rewrite FloatAxioms.eqb_spec.
  change (Prim2SF zero) with (S754_zero false).
  destruct (Prim2SF a) as [s|s| |s m e]; cbn;
    try destruct s; try discriminate; eauto.
Qed.

Lemma percentDifference_positive_by_zero (a : float) :
  (0 <? a) = true -> percentDifference a 0 = infinity.
Proof.
  intros Ha. unfold percentDifference. apply Prim2SF_inj.
  rewrite mul_spec, div_spec, sub_spec.
  destruct (positive_float a Ha) as [E | (m & e & E)]; rewrite E; reflexivity.
Qed.

Lemma percentDifference_zero_by_zero (a : float) :
  PrimFloat.is_zero a = true ->
  PrimFloat.is_nan (percentDifference a 0) = true.
Proof.
  intros Ha. destruct (zero_float a Ha) as [s E].
  assert (Hnan : percentDifference a 0 = nan).
  { unfold percentDifference. apply Prim2SF_inj.
    rewrite mul_spec, div_spec, sub_spec, E. destruct s; reflexivity. }
  rewrite Hnan. reflexivity.
Qed.

Lemma percentDifference_raw (a b : float) :
  raw_quotient a b (percentDifference a b).
Proof.
  split; [reflexivity|]. split; intros ->.
  - apply percentDifference_positive_by_zero.
  - apply percentDifference_zero_by_zero.
Qed.

(** C6, as the code has it.  Each delta [compareDatacenters] reports is
    the quotient [((a - b) / b) * 100] of the two runs' values, computed
    with no guard: when the second datacenter's value is zero the delta is
    [Infinity] (first value positive) or [NaN] (first value zero too). *)
Theorem compareDatacenters_deltas_unguarded
  (H : Host) (this this' : SimulationEngine) (idA idB : string)
  (compared : Compared.t) :
  compareDatacenters H this idA idB = (this', Ok compared) ->
  let r1 := Compared.dc1 compared in
  let r2 := Compared.dc2 compared in
  let deltas := Compared.comparison compared in
  raw_quotient (WaterUse.liters (Simulation.water r1))
    (WaterUse.liters (Simulation.water r2))
    (Comparison.waterDifference deltas)
  /\ raw_quotient (Emissions.grams (Simulation.emissions r1))
       (Emissions.grams (Simulation.emissions r2))
       (Comparison.emissionsDifference deltas)
  /\ raw_quotient (Electricity.withOverhead (Simulation.electricity r1))
       (Electricity.withOverhead (Simulation.electricity r2))
       (Comparison.electricityDifference deltas).
Proof.
  unfold compareDatacenters.
  destruct (runSimulation H _) as [r1|e1]; [|discriminate].
  destruct (runSimulation H _) as [r2|e2]; [|discriminate].
  intros [= _ <-]. cbn.
  repeat split; try apply percentDifference_raw;
    intros ->; first [ apply percentDifference_positive_by_zero
                     | apply percentDifference_zero_by_zero ].
Qed.

(** Arizona against Finland: Finland draws no water, and the water delta
    is [Infinity]. *)
Lemma compareDatacenters_deltas_unguarded_witness :
  exists compared,
    snd (compareDatacenters SeriesHost.host phoenix_image_arizona
           "arizona" "finland") = Ok compared
    /\ Comparison.waterDifference (Compared.comparison compared) = infinity.
Proof.
  destruct (compareDatacenters SeriesHost.host phoenix_image_arizona
              "arizona" "finland") as [this' [compared|e]] eqn:Hrun;
    [|vm_compute in Hrun; discriminate].
  exists compared. split; [reflexivity|].
  destruct (compareDatacenters_deltas_unguarded _ _ _ _ _ _ Hrun)
    as ((_ & Hinfinite & _) & _ & _).
  apply Hinfinite; vm_compute in Hrun; injection Hrun as _ <-; reflexivity.
Defined.

(** C6 as the specification states it fails: comparing Arizona with
    Finland, whose water use is zero, reports the water delta [Infinity];
    comparing Finland with itself reports [NaN]. *)
Lemma compareDatacenters_zero_water_delta :
  (exists compared,
      snd (compareDatacenters SeriesHost.host phoenix_image_arizona
             "arizona" "finland") = Ok compared
      /\ WaterUse.liters (Simulation.water (Compared.dc2 compared)) = 0
      /\ Comparison.waterDifference (Compared.comparison compared)
         = infinity)
  /\ (exists compared,
         snd (compareDatacenters SeriesHost.host phoenix_image_arizona
                "finland" "finland") = Ok compared
         /\ WaterUse.liters (Simulation.water (Compared.dc2 compared)) = 0
         /\ Comparison.waterDifference (Compared.comparison compared) = nan).
Proof.
  split; vm_compute; eexists; repeat split.
Qed.

(** ** The distance *)







Lemma SFmul_comm (x y : spec_float) :
  SFmul prec emax x y = SFmul prec emax y x.
Proof.
  destruct x as [sx|sx| |sx mx ex], y as [sy|sy| |sy my ey]; cbn;
    try reflexivity;
    try (destruct sx, sy; reflexivity).
  now rewrite Pos.mul_comm, Z.add_comm, xorb_comm.
Qed.





Lemma mul_comm (x y : float) : x * y = y * x.
Proof.
  apply Prim2SF_inj. now rewrite !mul_spec, SFmul_comm.
Qed.








(** A finite number minus itself is [+0]. *)
Lemma sub_diag (x : float) : PrimFloat.is_finite x = true -> x - x = 0.
Proof.
  unfold PrimFloat.is_finite, PrimFloat.is_nan, PrimFloat.is_infinity.
  intros Hx. apply Prim2SF_inj. rewrite sub_spec.
  change (Prim2SF 0) with (S754_zero false).
  revert Hx. rewrite !FloatAxioms.eqb_spec, abs_spec.
  destruct (Prim2SF x) as [s|s| |s m e]; cbn.
  - now destruct s.
  - now destruct s.
  - discriminate.
  - intros _. rewrite Z.min_id, Z.sub_diag. reflexivity.
Qed.









(* ================================================================== *)
(** * Further properties of the engine *)

(** ** When a calculation returns [null] *)

(** X1.  [calculateElectricity] and [calculateWater] return [null] exactly
    when the workload or the datacenter is falsy, [calculateEmissions]
    exactly when the datacenter is: with the selections they need, they
    return a result or throw, never [null]. *)
Theorem calculations_null_iff (this : SimulationEngine) :
  (calculateElectricity this = Ok None
   <-> truthy (currentWorkload this) = false
       \/ truthy (currentDatacenter this) = false)
  /\ (calculateWater this = Ok None
      <-> truthy (currentWorkload this) = false
          \/ truthy (currentDatacenter this) = false)
  /\ (calculateEmissions this = Ok None
      <-> truthy (currentDatacenter this) = false).
Proof.
  assert (Hel : calculateElectricity this = Ok None ->
                truthy (currentWorkload this) = false
                \/ truthy (currentDatacenter this) = false).
  { unfold calculateElectricity.
    destruct (truthy (currentWorkload this)); [|now left].
    destruct (truthy (currentDatacenter this)); [|now right].
    cbn [negb orb].
    destruct (baseKwh_of _); cbn [bind]; [|discriminate].
    destruct (record_of _); cbn [bind]; discriminate. }
  split; [|split].
  - split; [exact Hel | apply calculateElectricity_unset].
  - split; [|apply calculateWater_unset].
    unfold calculateWater.
    destruct (truthy (currentDatacenter this)) eqn:Hd; [|now right].
    destruct (truthy (currentWorkload this)) eqn:Hw; [|now left].
    cbn [negb orb].
    destruct (calculateElectricity this) as [[el|]|e] eqn:Hrun;
      cbn [bind]; try discriminate.
    + destruct (record_of _); cbn [bind]; discriminate.
    + intros _. destruct (Hel eq_refl) as [X|X]; discriminate X.
  - split; [|apply calculateEmissions_unset].
    unfold calculateEmissions.
    destruct (truthy (currentDatacenter this)); [|reflexivity].
    cbn [negb].
    destruct (calculateElectricity this) as [el|e]; cbn [bind];
      [|discriminate].
    destruct (record_of _); cbn [bind]; [|discriminate].
    destruct (deref el); cbn [bind]; discriminate.
Qed.

(** ** What [runSimulation] throws and returns *)

(** X2.  [runSimulation] throws an [Error] of its own exactly when the
    city, the workload or the datacenter is falsy, and its message is then
    ['Simulation not fully configured']; any other throw is a
    [TypeError]. *)
Theorem runSimulation_configuration_error_iff
  (H : Host) (this : SimulationEngine) :
  ((exists message,
       runSimulation H this = Throw (ConfigurationError message))
   <-> truthy (currentCity this) = false
       \/ truthy (currentWorkload this) = false
       \/ truthy (currentDatacenter this) = false)
  /\ (forall message,
         runSimulation H this = Throw (ConfigurationError message) ->
         message = "Simulation not fully configured")
  /\ (forall e,
         runSimulation H this = Throw e ->
         truthy (currentCity this) = true ->
         truthy (currentWorkload this) = true ->
         truthy (currentDatacenter this) = true ->
         e = TypeError).
Proof.
  split; [|split].
  - split.
    + intros [message Hthrow].
      exact (runSimulation_ConfigurationError H this message Hthrow).
    + intros Hunset. eexists.
      exact (runSimulation_unconfigured H this Hunset).
  - intros message Hthrow.
    pose proof (runSimulation_ConfigurationError H this message Hthrow)
      as Hunset.
    rewrite (runSimulation_unconfigured H this Hunset) in Hthrow.
    now injection Hthrow as <-.
  - intros e Hthrow Hc Hw Hd. destruct e as [message|]; [|reflexivity].
    destruct (runSimulation_ConfigurationError H this message Hthrow)
      as [Hf | [Hf | Hf]]; congruence.
Qed.

(** X3.  What [runSimulation] returns is made of what the other methods
    return on the same engine: the city and the datacenter are records,
    not inherited members, the distance is [calculateDistance] of their coordinates, the
    three impact results are those of [calculateElectricity],
    [calculateWater] and [calculateEmissions], the materials those of
    [getMaterials], the flows those of [generateFlows], and the
    selections and the hour are the engine's. *)
Theorem runSimulation_results
  (H : Host) (this : SimulationEngine) (r : Simulation.t) :
  runSimulation H this = Ok r ->
  (exists c d,
      currentCity this = Rec c /\ currentDatacenter this = Rec d
      /\ Simulation.distance r
         = calculateDistance (number H) (City.coords c) (Datacenter.coords d)
      /\ NarrativeData.distanceKm (Simulation.narrativeData r)
         = Math_round (Simulation.distance r))
  /\ calculateElectricity this = Ok (Some (Simulation.electricity r))
  /\ calculateWater this = Ok (Some (Simulation.water r))
  /\ calculateEmissions this = Ok (Some (Simulation.emissions r))
  /\ Simulation.materials r = getMaterials
  /\ generateFlows this (Simulation.electricity r) (Simulation.water r)
       (Simulation.emissions r) getMaterials = Ok (Simulation.flows r)
  /\ NARRATIVES_standard H (Simulation.narrativeData r)
     = Ok (Simulation.narrative r)
  /\ Simulation.city r = currentCity this
  /\ Simulation.workload r = currentWorkload this
  /\ Simulation.datacenter r = currentDatacenter this
  /\ Simulation.hour r = currentHour this.
Proof.
  unfold runSimulation.
  destruct (negb _ || negb _ || negb _); [discriminate|].
  destruct (currentCity this) as [| |c|k]; cbn [record_of bind];
    try discriminate.
  destruct (currentDatacenter this) as [| |d|k]; cbn [record_of bind];
    try discriminate.
  destruct (calculateElectricity this) as [[el|]|e1]; cbn [bind deref];
    try discriminate;
    destruct (calculateWater this) as [[wa|]|e2]; cbn [bind deref];
    try discriminate;
    destruct (calculateEmissions this) as [[em|]|e3]; cbn [bind deref];
    try discriminate.
  destruct (index _ 0) as [e0|]; cbn [bind deref]; [|discriminate].
  destruct (NARRATIVES_standard H _) as [text|e4] eqn:Htext; cbn [bind];
    [|discriminate].
  destruct (generateFlows _ el wa em getMaterials) as [flows|e5] eqn:Hflows;
    cbn [bind]; [|discriminate].
  intros [= <-]. cbn.
  split; [exists c, d; repeat split|].
  repeat (split; [reflexivity|]).
  split; [exact Hflows|]. split; [exact Htext|]. repeat split.
Qed.

(** Phoenix, image generation, Arizona, 15:00 on the series host. *)
Lemma runSimulation_results_witness :
  exists r,
    runSimulation SeriesHost.host phoenix_image_arizona = Ok r
    /\ calculateWater phoenix_image_arizona = Ok (Some (Simulation.water r))
    /\ Simulation.hour r = 15%Z.
Proof.
  destruct (runSimulation SeriesHost.host phoenix_image_arizona)
    as [r|e] eqn:Hrun; [|vm_compute in Hrun; discriminate].
  exists r. split; [reflexivity|].
  destruct (runSimulation_results _ _ _ Hrun)
    as (_ & _ & Hwater & _ & _ & _ & _ & _ & _ & _ & Hhour).
  split; [exact Hwater | exact Hhour].
Defined.

(** ** [configure] followed by [runSimulation] *)

Lemma own_key {A} (o : object A) (key : string) (v : A) :
  own o key = Some v -> In (key, v) o.
Proof.
  induction o as [|[k x] o IH]; cbn; [discriminate|].
  destruct (String.eqb_spec k key) as [-> | Hne].
  - intros [= ->]. now left.
  - intros Hrest. right. now apply IH.
Qed.

(** The keys of the three tables are not empty. *)
Lemma table_keys_truthy (kc kw kd : string)
  (c : City.t) (w : Workload.t) (d : Datacenter.t) :
  own CITIES kc = Some c ->
  own WORKLOADS kw = Some w ->
  own DATACENTERS kd = Some d ->
  truthy_string kc = true /\ truthy_string kw = true
  /\ truthy_string kd = true.
Proof.
  intros Hc Hw Hd.
  apply own_key in Hc. apply own_key in Hw. apply own_key in Hd.
  repeat split.
  - destruct Hc as [[= <- _] | [[= <- _] | [[= <- _] | [[= <- _] | []]]]];
      reflexivity.
  - destruct Hw as [[= <- _] | [[= <- _] | [[= <- _] | [[= <- _] | []]]]];
      reflexivity.
  - destruct Hd as [[= <- _] | [[= <- _] | [[= <- _] | [[= <- _] | []]]]];
      reflexivity.
Qed.

(** X4.  Whatever the engine held before, [configure] with a key of each
    table and any hour (or none) makes the next [runSimulation] return, on
    every host; the result carries the three records of the tables. *)
Theorem configure_then_runSimulation_returns
  (H : Host) (this : SimulationEngine) (kc kw kd : string)
  (c : City.t) (w : Workload.t) (d : Datacenter.t) (h : option Z) :
  own CITIES kc = Some c ->
  own WORKLOADS kw = Some w ->
  own DATACENTERS kd = Some d ->
  exists r,
    runSimulation H
      (configure this
         {| Args.city := Some kc; Args.workload := Some kw;
            Args.datacenter := Some kd; Args.hour := h |}) = Ok r
    /\ Simulation.city r = Rec c
    /\ Simulation.workload r = Rec w
    /\ Simulation.datacenter r = Rec d.
Proof.
  intros Hc Hw Hd.
  destruct (table_keys_truthy _ _ _ _ _ _ Hc Hw Hd) as (Tc & Tw & Td).
  destruct (drift_table kd d Hd) as (dr & first & Hdr & Hfirst).
  set (configured := configure this _).
  assert (Hcity : currentCity configured = Rec c).
  { unfold configured, configure, assign_if_truthy.
    cbn [Args.city Args.workload Args.datacenter Args.hour].
    rewrite Tc, Tw, Td. destruct h; cbn; now apply get_own. }
  assert (Hworkload : currentWorkload configured = Rec w).
  { unfold configured, configure, assign_if_truthy.
    cbn [Args.city Args.workload Args.datacenter Args.hour].
    rewrite Tc, Tw, Td. destruct h; cbn; now apply get_own. }
  assert (Hdatacenter : currentDatacenter configured = Rec d).
  { unfold configured, configure, assign_if_truthy.
    cbn [Args.city Args.workload Args.datacenter Args.hour].
    rewrite Tc, Tw, Td. destruct h; cbn; now apply get_own. }
  destruct (runSimulation_configured H configured c w d dr first
              Hcity Hworkload Hdatacenter Hdr Hfirst)
    as (r & Hr & Hrd & _).
  exists r. split; [exact Hr|].
  unfold runSimulation in Hr. rewrite Hcity, Hworkload, Hdatacenter in Hr.
  cbn [truthy negb orb record_of bind] in Hr.
  repeat match type of Hr with
         | bind ?x _ = Ok _ =>
             destruct x; cbn [bind] in Hr; [|discriminate]
         end.
  injection Hr as <-. cbn. repeat split.
Qed.

(** Lagos, biometric security, Singapore at 08:00, on an engine that held
    the Phoenix configuration. *)
Lemma configure_then_runSimulation_returns_witness :
  exists r,
    runSimulation SeriesHost.host
      (configure phoenix_image_arizona
         {| Args.city := Some "lagos"; Args.workload := Some "biometric";
            Args.datacenter := Some "singapore"; Args.hour := Some 8%Z |})
    = Ok r
    /\ Simulation.datacenter r = Rec singapore.
Proof.
  destruct (configure_then_runSimulation_returns SeriesHost.host
              phoenix_image_arizona "lagos" "biometric" "singapore"
              _ _ singapore (Some 8%Z) eq_refl eq_refl eq_refl)
    as (r & Hr & _ & _ & Hd).
  exists r. split; [exact Hr | exact Hd].
Defined.

(** X5.  An identifier that is neither a key of the table nor a member of
    [Object.prototype], once configured, makes the next [runSimulation]
    throw the configuration error, whatever was selected before and
    whatever else is configured. *)
Theorem configure_unknown_then_runSimulation_throws
  (H : Host) (this : SimulationEngine) (id : string) :
  truthy_string id = true ->
  inherited id = false ->
  (own CITIES id = None ->
   runSimulation H
     (configure this
        {| Args.city := Some id; Args.workload := None;
           Args.datacenter := None; Args.hour := None |})
   = Throw (ConfigurationError "Simulation not fully configured"))
  /\ (own WORKLOADS id = None ->
      runSimulation H
        (configure this
           {| Args.city := None; Args.workload := Some id;
              Args.datacenter := None; Args.hour := None |})
      = Throw (ConfigurationError "Simulation not fully configured"))
  /\ (own DATACENTERS id = None ->
      runSimulation H
        (configure this
           {| Args.city := None; Args.workload := None;
              Args.datacenter := Some id; Args.hour := None |})
      = Throw (ConfigurationError "Simulation not fully configured")).
Proof.
  intros Hid Hproto.
  assert (Hlookup : forall A (o : object A),
             own o id = None -> get o id = Undefined).
  { intros A o Hown. rewrite (get_unknown _ _ Hown).
    unfold prototype_lookup. now rewrite Hproto. }
  unfold configure, assign_if_truthy.
  cbn [Args.city Args.workload Args.datacenter Args.hour].
  rewrite Hid.
  repeat split; intros Hown; rewrite (Hlookup _ _ Hown);
    apply runSimulation_unconfigured; cbn; auto.
Qed.

(** The Phoenix configuration with the datacenter ['mars']. *)
Lemma configure_unknown_then_runSimulation_throws_witness :
  runSimulation SeriesHost.host
    (configure phoenix_image_arizona
       {| Args.city := None; Args.workload := None;
          Args.datacenter := Some "mars"; Args.hour := None |})
  = Throw (ConfigurationError "Simulation not fully configured").
Proof.
  exact (proj2 (proj2 (configure_unknown_then_runSimulation_throws
                         SeriesHost.host phoenix_image_arizona "mars"
                         eq_refl eq_refl)) eq_refl).
Defined.

(** ** Names inherited from [Object.prototype] *)

(** An inherited name is not empty and is a key of none of the tables. *)
Lemma inherited_name (id : string) :
  inherited id = true ->
  truthy_string id = true
  /\ own CITIES id = None /\ own WORKLOADS id = None
  /\ own DATACENTERS id = None.
Proof.
  unfold inherited. intros Hid.
  apply existsb_exists in Hid. destruct Hid as (name & Hin & Heq).
  apply String.eqb_eq in Heq. subst name.
  repeat (destruct Hin as [<- | Hin]; [repeat split|]).
  destruct Hin.
Qed.

Lemma calculations_inherited_workload
  (this : SimulationEngine) (key : string) (d : Datacenter.t) :
  currentWorkload this = Inherited key ->
  currentDatacenter this = Rec d ->
  exists el wa em,
    calculateElectricity this = Ok (Some el)
    /\ calculateWater this = Ok (Some wa)
    /\ calculateEmissions this = Ok (Some em)
    /\ Electricity.baseKwh el = 0
    /\ Electricity.sources el = Energy.sources (Datacenter.energy d)
    /\ Emissions.drift em = get EMISSIONS_DRIFT (Datacenter.id d).
Proof.
  intros Hw Hd.
  unfold calculateWater, calculateEmissions, calculateElectricity.
  rewrite Hw, Hd. cbn [truthy negb orb baseKwh_of record_of deref bind].
  do 3 eexists. repeat (split; [reflexivity|]). reflexivity.
Qed.

(** [runSimulation] returns when the three calculations do and the drift
    entry has a first destination. *)
Lemma runSimulation_from_calculations
  (H : Host) (this : SimulationEngine) (c : City.t) (d : Datacenter.t)
  (el : Electricity.t) (wa : WaterUse.t) (em : Emissions.t)
  (dr : Drift.t) (first : Destination.t) :
  currentCity this = Rec c ->
  truthy (currentWorkload this) = true ->
  currentDatacenter this = Rec d ->
  calculateElectricity this = Ok (Some el) ->
  calculateWater this = Ok (Some wa) ->
  calculateEmissions this = Ok (Some em) ->
  Electricity.sources el = Energy.sources (Datacenter.energy d) ->
  Emissions.drift em = Rec dr ->
  index (Drift.destinations dr) 0 = Some first ->
  exists r,
    runSimulation H this = Ok r
    /\ Simulation.electricity r = el
    /\ Simulation.water r = wa
    /\ Simulation.emissions r = em
    /\ Simulation.workload r = currentWorkload this
    /\ map FlowSpec.of_flow (Simulation.flows r)
       = FlowSpec.expected_with (FlowSpec.share_or d) c d wa
           (Emissions.grams em) (Drift.destinations dr).
Proof.
  intros Hc Hw Hd Hel Hwa Hem Hsources Hdrift Hfirst.
  destruct (generateFlows_groups this c d el wa em dr Hc Hd Hsources Hdrift)
    as (flows & Hflows & Hexpected).
  destruct ewaste_first as [e0 He0].
  unfold runSimulation, NARRATIVES_standard.
  rewrite Hc, Hw, Hd, Hel, Hwa, Hem, He0.
  cbn [truthy negb orb record_of deref bind NarrativeData.emissionsDrift].
  rewrite Hdrift. cbn [record_of bind]. rewrite Hfirst. cbn [deref bind].
  rewrite Hflows. cbn [bind].
  eexists. split; [reflexivity|]. cbn.
  repeat (split; [reflexivity|]). exact Hexpected.
Qed.

Lemma table_zero_impact (key : string) :
  forallb (fun d => forallb (zero_impact key d) hours)
    (Object_values DATACENTERS) = true.
Proof. vm_compute. reflexivity. Qed.

(** X6.  A member name of [Object.prototype] (['toString'],
    ['constructor'], ...) is taken for a selection.  As a city or a
    datacenter it makes [runSimulation] throw a [TypeError], not the
    configuration error.  As a workload it is accepted: with a city and a
    datacenter of the table selected and an hour in 0..23,
    [runSimulation] returns, the workload of the result is the inherited
    member, and the energy, the water and the emissions are zero. *)
Theorem configure_inherited_name
  (H : Host) (this : SimulationEngine) (id : string) :
  inherited id = true ->
  (truthy (currentWorkload this) = true ->
   truthy (currentDatacenter this) = true ->
   runSimulation H
     (configure this
        {| Args.city := Some id; Args.workload := None;
           Args.datacenter := None; Args.hour := None |})
   = Throw TypeError)
  /\ (truthy (currentCity this) = true ->
      truthy (currentWorkload this) = true ->
      runSimulation H
        (configure this
           {| Args.city := None; Args.workload := None;
              Args.datacenter := Some id; Args.hour := None |})
      = Throw TypeError)
  /\ (forall (c : City.t) (kd : string) (d : Datacenter.t),
         currentCity this = Rec c ->
         own DATACENTERS kd = Some d ->
         currentDatacenter this = Rec d ->
         (0 <= currentHour this < 24)%Z ->
         exists r,
           runSimulation H
             (configure this
                {| Args.city := None; Args.workload := Some id;
                   Args.datacenter := None; Args.hour := None |}) = Ok r
           /\ Simulation.workload r = Inherited id
           /\ Electricity.baseKwh (Simulation.electricity r) = 0
           /\ (Electricity.withOverhead (Simulation.electricity r) =? 0)
              = true
           /\ (WaterUse.liters (Simulation.water r) =? 0) = true
           /\ (Emissions.grams (Simulation.emissions r) =? 0) = true).
Proof.
  intros Hid.
  destruct (inherited_name id Hid) as (Tid & Hc & Hw & Hd).
  unfold configure, assign_if_truthy.
  cbn [Args.city Args.workload Args.datacenter Args.hour].
  rewrite Tid, (get_unknown _ _ Hc), (get_unknown _ _ Hw),
    (get_unknown _ _ Hd).
  unfold prototype_lookup. rewrite Hid.
  split; [|split].
  - intros Tw Td. unfold runSimulation. cbn. rewrite Tw, Td. reflexivity.
  - intros Tc Tw. unfold runSimulation. cbn. rewrite Tc, Tw. cbn.
    destruct (currentCity this); reflexivity.
  - intros c kd d Hcity Hkd Hdc Hh.
    set (that := set_currentWorkload this (Inherited id)).
    destruct (calculations_inherited_workload that id d eq_refl Hdc)
      as (el & wa & em & Hel & Hwa & Hem & Hbase & Hsources & Hdrift).
    destruct (drift_table kd d Hkd) as (dr & first & Hdr & Hfirst).
    rewrite Hdr in Hdrift.
    destruct (runSimulation_from_calculations H that c d el wa em dr first
                Hcity eq_refl Hdc Hel Hwa Hem Hsources Hdrift Hfirst)
      as (r & Hr & <- & <- & <- & Hworkload & _).
    exists r. split; [exact Hr|]. split; [exact Hworkload|].
    split; [exact Hbase|].
    pose proof (table_zero_impact id) as Hall.
    rewrite forallb_forall in Hall.
    specialize (Hall d (own_In _ _ _ Hkd)).
    rewrite forallb_forall in Hall.
    specialize (Hall _ (hour_In_hours _ Hh)).
    unfold zero_impact in Hall.
    replace {| currentCity := Null; currentWorkload := Inherited id;
               currentDatacenter := Rec d;
               currentHour := currentHour this |}
      with (set_currentCity that Null) in Hall
      by (unfold set_currentCity, that, set_currentWorkload; cbn;
          now rewrite Hdc).
    destruct (calculations_ignore_city that Null) as (-> & -> & ->) in Hall.
    rewrite Hel, Hwa, Hem in Hall.
    apply andb_prop in Hall. destruct Hall as [Hall Hgrams].
    apply andb_prop in Hall. destruct Hall as [Hall Hliters].
    apply andb_prop in Hall. destruct Hall as [_ Hover].
    repeat split; assumption.
Qed.

(** On the Phoenix configuration: the city ['toString'] makes the run
    throw a [TypeError]; the workload ['constructor'] runs with no
    energy. *)
Lemma configure_inherited_name_witness :
  runSimulation SeriesHost.host
    (configure phoenix_image_arizona
       {| Args.city := Some "toString"; Args.workload := None;
          Args.datacenter := None; Args.hour := None |})
  = Throw TypeError
  /\ exists r,
      runSimulation SeriesHost.host
        (configure phoenix_image_arizona
           {| Args.city := None; Args.workload := Some "constructor";
              Args.datacenter := None; Args.hour := None |}) = Ok r
      /\ Electricity.baseKwh (Simulation.electricity r) = 0.
Proof.
  split.
  - exact (proj1 (configure_inherited_name SeriesHost.host
                    phoenix_image_arizona "toString" eq_refl)
             eq_refl eq_refl).
  - destruct (proj2 (proj2 (configure_inherited_name SeriesHost.host
                              phoenix_image_arizona "constructor" eq_refl))
                _ "arizona" arizona eq_refl eq_refl eq_refl
                ltac:(cbn; lia))
      as (r & Hr & _ & Hbase & _).
    exists r. split; [exact Hr | exact Hbase].
Defined.

(** ** An hour outside 0..23 *)

Lemma mul_nan_r (x : float) : x * nan = nan.
Proof.
  apply Prim2SF_inj. rewrite mul_spec.
  change (Prim2SF nan) with S754_nan.
  destruct (Prim2SF x); reflexivity.
Qed.

Lemma index_out_of_range {A} (a : list A) (i : Z) :
  ~ (0 <= i < Z.of_nat (List.length a))%Z -> index a i = None.
Proof.
  intros Hout. destruct (index a i) as [x|] eqn:Hx; [|reflexivity].
  exfalso. apply Hout. apply index_Some_iff. now exists x.
Qed.

(** X7.  At an hour outside 0..23 the three modifier reads are
    [undefined] and the arithmetic goes on with [NaN]: for any workload
    and datacenter record the energy with overhead, the litres and the
    grams are [NaN].  Nothing throws: with a city and a datacenter of the
    table [runSimulation] returns, its flow list has no water flow
    ([NaN > 0] is false) and every emissions flow has intensity [NaN]. *)
Theorem hour_out_of_range_gives_NaN :
  (forall (this : SimulationEngine) (w : Workload.t) (d : Datacenter.t),
      currentWorkload this = Rec w ->
      currentDatacenter this = Rec d ->
      ~ (0 <= currentHour this < 24)%Z ->
      exists el wa em,
        calculateElectricity this = Ok (Some el)
        /\ calculateWater this = Ok (Some wa)
        /\ calculateEmissions this = Ok (Some em)
        /\ Electricity.withOverhead el = nan
        /\ WaterUse.liters wa = nan
        /\ Emissions.grams em = nan)
  /\ (forall (H : Host) (this : SimulationEngine) (c : City.t)
        (w : Workload.t) (kd : string) (d : Datacenter.t),
         currentCity this = Rec c ->
         currentWorkload this = Rec w ->
         own DATACENTERS kd = Some d ->
         currentDatacenter this = Rec d ->
         ~ (0 <= currentHour this < 24)%Z ->
         exists r,
           runSimulation H this = Ok r
           /\ forall flow,
               In flow (Simulation.flows r) ->
               Flow.type flow <> "water"
               /\ (Flow.type flow = "emissions" ->
                   Flow.intensity flow = nan)).
Proof.
  assert (Hcalc :
            forall (this : SimulationEngine) (w : Workload.t)
                   (d : Datacenter.t),
              currentWorkload this = Rec w ->
              currentDatacenter this = Rec d ->
              ~ (0 <= currentHour this < 24)%Z ->
              exists el wa em,
                calculateElectricity this = Ok (Some el)
                /\ calculateWater this = Ok (Some wa)
                /\ calculateEmissions this = Ok (Some em)
                /\ Electricity.withOverhead el = nan
                /\ WaterUse.liters wa = nan
                /\ Emissions.grams em = nan).
  { intros this w d Hw Hd Hout.
    destruct (calculateElectricity_configured this w d Hw Hd)
      as (el & Hel & _ & Hover & _).
    destruct (calculateWater_configured this w d Hw Hd)
      as (el' & wa & Hel' & Hwa & Hliters & _).
    destruct (calculateEmissions_configured this w d Hw Hd)
      as (el'' & em & Hel'' & Hem & Hgrams & _).
    assert (Eel' : el' = el) by congruence.
    assert (Eel'' : el'' = el) by congruence.
    subst el' el''.
    rewrite (index_out_of_range TIME_MODIFIERS.demandByHour _ Hout) in Hover.
    rewrite (index_out_of_range TIME_MODIFIERS.waterUsageByHour _ Hout)
      in Hliters.
    rewrite (index_out_of_range TIME_MODIFIERS.carbonIntensityByHour _ Hout)
      in Hgrams.
    cbn [to_number] in Hover, Hliters, Hgrams.
    rewrite mul_nan_r in Hover, Hliters.
    rewrite mul_nan_r, mul_nan_r in Hgrams.
    exists el, wa, em. repeat split; assumption. }
  split; [exact Hcalc|].
  intros H this c w kd d Hc Hw Hkd Hd Hout.
  destruct (Hcalc this w d Hw Hd Hout)
    as (el & wa & em & Hel & Hwa & Hem & _ & Hliters & Hgrams).
  destruct (drift_table kd d Hkd) as (dr & first & Hdr & Hfirst).
  destruct (runSimulation_configured H this c w d dr first Hc Hw Hd Hdr Hfirst)
    as (r & Hr & _ & _ & Hwa' & Hem' & Hflows).
  assert (Ewa : Simulation.water r = wa) by congruence.
  assert (Eem : Simulation.emissions r = em) by congruence.
  rewrite Ewa, Eem, Hgrams in Hflows.
  unfold FlowSpec.expected_with in Hflows. rewrite Hliters in Hflows.
  change (0 <? nan) with false in Hflows.
  change (Math_min (nan / 500) 1) with nan in Hflows.
  exists r. split; [exact Hr|].
  intros flow Hin.
  apply (in_map FlowSpec.of_flow) in Hin. rewrite Hflows in Hin.
  assert (Htype : FlowSpec.type (FlowSpec.of_flow flow) = Flow.type flow)
    by reflexivity.
  assert (Hintensity :
            FlowSpec.intensity (FlowSpec.of_flow flow) = Flow.intensity flow)
    by reflexivity.
  repeat (apply in_app_or in Hin; destruct Hin as [Hin|Hin]);
    try (apply in_map_iff in Hin; destruct Hin as (x & Hx & _));
    try (destruct Hin as [Hx|[]]);
    try (destruct Hin);
    rewrite <- Htype, <- Hintensity, <- Hx; cbn;
    (split; [discriminate | first [reflexivity | discriminate]]).
Qed.

(** The Phoenix configuration at hour 24. *)
Lemma hour_out_of_range_gives_NaN_witness :
  exists wa,
    calculateWater
      (configure phoenix_image_arizona
         {| Args.city := None; Args.workload := None;
            Args.datacenter := None; Args.hour := Some 24%Z |})
    = Ok (Some wa)
    /\ WaterUse.liters wa = nan.
Proof.
  destruct (proj1 hour_out_of_range_gives_NaN
              (configure phoenix_image_arizona
                 {| Args.city := None; Args.workload := None;
                    Args.datacenter := None; Args.hour := Some 24%Z |})
              _ arizona eq_refl eq_refl ltac:(cbn; lia))
    as (el & wa & em & _ & Hwa & _ & _ & Hliters & _).
  exists wa. split; [exact Hwa | exact Hliters].
Defined.

(** ** [configure] on its own *)

(** [configure] leaves alone what it is not given: a selection whose
    identifier is omitted or empty keeps its value, and so does the hour
    when none is passed; a selection whose identifier is given becomes the
    table lookup of that identifier, and the hour the one passed.  In
    particular the empty argument changes nothing. *)
Lemma configure_frame (this : SimulationEngine) (args : Args.t) :
  currentCity (configure this args)
  = (if given (Args.city args)
     then match Args.city args with
          | Some k => get CITIES k
          | None => currentCity this
          end
     else currentCity this)
  /\ currentWorkload (configure this args)
     = (if given (Args.workload args)
        then match Args.workload args with
             | Some k => get WORKLOADS k
             | None => currentWorkload this
             end
        else currentWorkload this)
  /\ currentDatacenter (configure this args)
     = (if given (Args.datacenter args)
        then match Args.datacenter args with
             | Some k => get DATACENTERS k
             | None => currentDatacenter this
             end
        else currentDatacenter this)
  /\ currentHour (configure this args)
     = match Args.hour args with
       | Some h => h
       | None => currentHour this
       end
  /\ (given (Args.city args) = false ->
      given (Args.workload args) = false ->
      given (Args.datacenter args) = false ->
      Args.hour args = None ->
      configure this args = this).
Proof.
  destruct this as [c0 w0 d0 h0], args as [kc kw kd h].
  unfold configure, assign_if_truthy, given. cbn.
  destruct kc as [kc|], kw as [kw|], kd as [kd|], h as [h|];
    try destruct (truthy_string kc); try destruct (truthy_string kw);
    try destruct (truthy_string kd); cbn;
    repeat split; intros; try discriminate; reflexivity.
Qed.

(** X8.  Configuring twice with the same argument is configuring once;
    and when all three identifiers are given and an hour is passed, the
    engine [configure] leaves does not depend on the engine it was called
    on: nothing of an earlier configuration survives. *)
Theorem configure_idempotent_and_overwriting
  (this other : SimulationEngine) (args : Args.t) :
  configure (configure this args) args = configure this args
  /\ (given (Args.city args) = true ->
      given (Args.workload args) = true ->
      given (Args.datacenter args) = true ->
      Args.hour args <> None ->
      configure this args = configure other args).
Proof.
  destruct this as [c0 w0 d0 h0], other as [c1 w1 d1 h1],
    args as [kc kw kd h].
  unfold configure, assign_if_truthy, given. cbn.
  destruct kc as [kc|], kw as [kw|], kd as [kd|], h as [h|];
    try destruct (truthy_string kc); try destruct (truthy_string kw);
    try destruct (truthy_string kd); cbn;
    split; intros; try discriminate; try contradiction; reflexivity.
Qed.

(** The Dublin scenario overwrites the Phoenix configuration and a fresh
    engine alike. *)
Lemma configure_idempotent_and_overwriting_witness :
  configure phoenix_image_arizona
    {| Args.city := Some "dublin"; Args.workload := Some "traffic";
       Args.datacenter := Some "finland"; Args.hour := Some 18%Z |}
  = configure constructor
      {| Args.city := Some "dublin"; Args.workload := Some "traffic";
         Args.datacenter := Some "finland"; Args.hour := Some 18%Z |}.
Proof.
  apply (proj2 (configure_idempotent_and_overwriting phoenix_image_arizona
                  constructor _)); [reflexivity .. | discriminate].
Defined.

(** ** [calculateFossilPercent] *)

(** X9.  [calculateFossilPercent] reads the grid mix at the four keys
    [natural_gas], [coal], [peat] and [oil] only: two grid mixes that
    agree there give the same percentage, whatever else they hold and in
    whatever order; a grid mix with none of the four gives 0.  For every
    datacenter of the table the percentage lies in [[0, 100]]. *)
Theorem calculateFossilPercent_reads_fossil_keys :
  (forall g g' : object float,
      (forall key,
          In key ["natural_gas"; "coal"; "peat"; "oil"] ->
          own g key = own g' key) ->
      calculateFossilPercent g = calculateFossilPercent g')
  /\ (forall g : object float,
         (forall key,
             In key ["natural_gas"; "coal"; "peat"; "oil"] ->
             own g key = None) ->
         calculateFossilPercent g = 0)
  /\ (forall (key : string) (d : Datacenter.t),
         own DATACENTERS key = Some d ->
         let percent :=
           calculateFossilPercent (Energy.gridMix (Datacenter.energy d)) in
         (0 <=? percent) && (percent <=? 100) = true).
Proof.
  split; [|split].
  - intros g g' Hagree. unfold calculateFossilPercent. cbn [fold_left].
    rewrite !Hagree by (cbn; tauto). reflexivity.
  - intros g Hnone. unfold calculateFossilPercent. cbn [fold_left].
    rewrite !Hnone by (cbn; tauto). reflexivity.
  - intros key d Hd. apply own_In in Hd.
    destruct Hd as [<- | [<- | [<- | [<- | []]]]]; vm_compute; reflexivity.
Qed.

(** Arizona's grid mix and the same with the nuclear and solar shares
    removed and the rest reordered. *)
Lemma calculateFossilPercent_reads_fossil_keys_witness :
  calculateFossilPercent (Energy.gridMix (Datacenter.energy arizona))
  = calculateFossilPercent
      [ ("hydro", 0.05); ("coal", 0.10); ("wind", 0.07);
        ("natural_gas", 0.35) ].
Proof.
  apply (proj1 calculateFossilPercent_reads_fossil_keys).
  intros key [<- | [<- | [<- | [<- | []]]]]; reflexivity.
Defined.

(** ** [compareDatacenters] as two runs *)

(** For an identifier that is not empty, assigning the table lookup to
    the datacenter is [configure({datacenter: id})]. *)
Lemma configure_datacenter (this : SimulationEngine) (id : string) :
  truthy_string id = true ->
  configure this
    {| Args.city := None; Args.workload := None;
       Args.datacenter := Some id; Args.hour := None |}
  = set_currentDatacenter this (get DATACENTERS id).
Proof.
  intros Hid. unfold configure, assign_if_truthy. cbn. now rewrite Hid.
Qed.

(** X10.  [compareDatacenters(idA, idB)] returns exactly when
    [runSimulation] returns after [configure({datacenter: idA})] and after
    [configure({datacenter: idB})] on the engine it is called on; it then
    returns those two results, the three deltas computed from them, and
    leaves the engine as it found it, for any identifiers that are not
    empty. *)
Theorem compareDatacenters_is_two_runs
  (H : Host) (this this' : SimulationEngine) (idA idB : string)
  (compared : Compared.t) :
  truthy_string idA = true ->
  truthy_string idB = true ->
  let configured id :=
    configure this
      {| Args.city := None; Args.workload := None;
         Args.datacenter := Some id; Args.hour := None |} in
  compareDatacenters H this idA idB = (this', Ok compared)
  <-> (this' = this
       /\ runSimulation H (configured idA) = Ok (Compared.dc1 compared)
       /\ runSimulation H (configured idB) = Ok (Compared.dc2 compared)
       /\ Compared.comparison compared
          = {| Comparison.waterDifference :=
                 percentDifference
                   (WaterUse.liters
                      (Simulation.water (Compared.dc1 compared)))
                   (WaterUse.liters
                      (Simulation.water (Compared.dc2 compared)));
               Comparison.emissionsDifference :=
                 percentDifference
                   (Emissions.grams
                      (Simulation.emissions (Compared.dc1 compared)))
                   (Emissions.grams
                      (Simulation.emissions (Compared.dc2 compared)));
               Comparison.electricityDifference :=
                 percentDifference
                   (Electricity.withOverhead
                      (Simulation.electricity (Compared.dc1 compared)))
                   (Electricity.withOverhead
                      (Simulation.electricity (Compared.dc2 compared))) |}).
Proof.
  intros HA HB configured. subst configured. cbv beta.
  rewrite !configure_datacenter by assumption.
  unfold compareDatacenters. cbv zeta.
  rewrite !set_currentDatacenter_twice, set_currentDatacenter_same.
  destruct (runSimulation H (set_currentDatacenter this (get DATACENTERS idA)))
    as [r1|e1].
  - destruct (runSimulation H
                (set_currentDatacenter this (get DATACENTERS idB)))
      as [r2|e2].
    + split.
      * intros [= <- <-]. cbn. repeat split.
      * destruct compared as [dc1 dc2 comparison]. cbn.
        intros (-> & [= ->] & [= ->] & ->). reflexivity.
    + split; [discriminate | intros (_ & _ & Hrun & _); discriminate].
  - split; [discriminate | intros (_ & Hrun & _); discriminate].
Qed.

(** Arizona against Ireland on the Phoenix configuration. *)
Lemma compareDatacenters_is_two_runs_witness :
  exists compared,
    snd (compareDatacenters SeriesHost.host phoenix_image_arizona
           "arizona" "ireland") = Ok compared
    /\ runSimulation SeriesHost.host
         (configure phoenix_image_arizona
            {| Args.city := None; Args.workload := None;
               Args.datacenter := Some "ireland"; Args.hour := None |})
       = Ok (Compared.dc2 compared).
Proof.
  destruct (compareDatacenters SeriesHost.host phoenix_image_arizona
              "arizona" "ireland") as [this' [compared|e]] eqn:Hrun;
    [|vm_compute in Hrun; discriminate].
  exists compared. split; [reflexivity|].
  destruct (proj1 (compareDatacenters_is_two_runs SeriesHost.host
                     phoenix_image_arizona this' "arizona" "ireland"
                     compared eq_refl eq_refl) Hrun)
    as (_ & _ & Hsecond & _).
  exact Hsecond.
Defined.

(** ** A datacenter compared with itself *)

Lemma finite_nonzero (a : float) :
  PrimFloat.is_finite a = true ->
  PrimFloat.is_zero a = false ->
  exists s m e, Prim2SF a = S754_finite s m e.
Proof.
  unfold PrimFloat.is_finite, PrimFloat.is_nan, PrimFloat.is_infinity,
    PrimFloat.is_zero.
  rewrite !FloatAxioms.eqb_spec, abs_spec.
  change (Prim2SF zero) with (S754_zero false).
  change (Prim2SF infinity) with (S754_infinity false).
  destruct (Prim2SF a) as [s|s| |s m e]; cbn; try discriminate; eauto.
  destruct s; discriminate.
Qed.

Lemma percentDifference_self_finite (a : float) :
  PrimFloat.is_finite a = true ->
  PrimFloat.is_zero a = false ->
  PrimFloat.is_zero (percentDifference a a) = true.
Proof.
  intros Hfinite Hnonzero.
  destruct (finite_nonzero a Hfinite Hnonzero) as (s & m & e & E).
  assert (Hdiff : a - a = 0).
  { apply Prim2SF_inj. rewrite sub_spec, E. cbn.
    rewrite Z.sub_diag. reflexivity. }
  unfold percentDifference, PrimFloat.is_zero.
  rewrite Hdiff, FloatAxioms.eqb_spec, mul_spec, div_spec, E.
  destruct s; reflexivity.
Qed.

Lemma percentDifference_self_zero (a : float) :
  PrimFloat.is_zero a = true ->
  PrimFloat.is_nan (percentDifference a a) = true.
Proof.
  intros Hzero. destruct (zero_float a Hzero) as [s E].
  assert (Hnan : percentDifference a a = nan).
  { unfold percentDifference. apply Prim2SF_inj.
    rewrite mul_spec, div_spec, sub_spec, E. destruct s; reflexivity. }
  rewrite Hnan. reflexivity.
Qed.

(** X11.  Comparing a datacenter with itself runs the same simulation
    twice: the two results are equal, and each delta is zero where the
    value is finite and not zero, and [NaN] where the value is zero (the
    water of a datacenter that uses none). *)
Theorem compareDatacenters_with_itself
  (H : Host) (this this' : SimulationEngine) (id : string)
  (compared : Compared.t) :
  compareDatacenters H this id id = (this', Ok compared) ->
  Compared.dc1 compared = Compared.dc2 compared
  /\ self_delta
       (WaterUse.liters (Simulation.water (Compared.dc1 compared)))
       (Comparison.waterDifference (Compared.comparison compared))
  /\ self_delta
       (Emissions.grams (Simulation.emissions (Compared.dc1 compared)))
       (Comparison.emissionsDifference (Compared.comparison compared))
  /\ self_delta
       (Electricity.withOverhead
          (Simulation.electricity (Compared.dc1 compared)))
       (Comparison.electricityDifference (Compared.comparison compared)).
Proof.
  unfold compareDatacenters. cbv zeta.
  rewrite set_currentDatacenter_twice.
  destruct (runSimulation H (set_currentDatacenter this (get DATACENTERS id)))
    as [r|e]; [|discriminate].
  intros [= _ <-]. cbn.
  split; [reflexivity|].
  repeat split;
    first [ apply percentDifference_self_finite
          | apply percentDifference_self_zero ].
Qed.

(** Finland against Finland on the Phoenix configuration: the
    electricity delta is zero, the water delta is [NaN]. *)
Lemma compareDatacenters_with_itself_witness :
  exists compared,
    snd (compareDatacenters SeriesHost.host phoenix_image_arizona
           "finland" "finland") = Ok compared
    /\ PrimFloat.is_zero
         (Comparison.electricityDifference (Compared.comparison compared))
       = true
    /\ PrimFloat.is_nan
         (Comparison.waterDifference (Compared.comparison compared))
       = true.
Proof.
  destruct (compareDatacenters SeriesHost.host phoenix_image_arizona
              "finland" "finland") as [this' [compared|e]] eqn:Hrun;
    [|vm_compute in Hrun; discriminate].
  exists compared. split; [reflexivity|].
  destruct (compareDatacenters_with_itself _ _ _ _ _ Hrun)
    as (_ & (_ & Hwater) & _ & (Helectricity & _)).
  split.
  - apply Helectricity; vm_compute in Hrun; injection Hrun as _ <-;
      reflexivity.
  - apply Hwater; vm_compute in Hrun; injection Hrun as _ <-; reflexivity.
Defined.

(** ** Invariants of [generateFlows] *)

(** A property the initial list has and every iteration keeps holds of
    what the loop returns. *)
Lemma for_of_Forall {A B} (P : B -> Prop) (xs : list A)
  (body : list B -> A -> result (list B)) :
  (forall flows x flows',
      Forall P flows -> body flows x = Ok flows' -> Forall P flows') ->
  forall flows result,
    Forall P flows -> for_of xs body flows = Ok result -> Forall P result.
Proof.
  intros Hbody. induction xs as [|x xs IH]; intros flows result HP; cbn.
  - now intros [= <-].
  - destruct (body flows x) as [flows'|e] eqn:Hstep; cbn [bind];
      [|discriminate].
    apply IH. exact (Hbody _ _ _ HP Hstep).
Qed.

Lemma Forall_push {B} (P : B -> Prop) (flows : list B) (flow : B) :
  Forall P flows -> P flow -> Forall P (push flows flow).
Proof.
  intros HP Hflow. unfold push. apply Forall_app. split; [exact HP|].
  now constructor.
Qed.

(** What every flow of [generateFlows] satisfies, when each pushed flow
    does. *)
Lemma generateFlows_Forall (P : Flow.t -> Prop)
  (this : SimulationEngine) (el : Electricity.t) (wa : WaterUse.t)
  (em : Emissions.t) (ms : Materials.t) (flows : list Flow.t) :
  (forall flow : Flow.t,
      (Flow.type flow = "data" /\ Flow.subtype flow = None
       /\ Flow.intensity flow = 1
       \/ Flow.type flow = "electricity" /\ Flow.subtype flow = None
       \/ Flow.type flow = "water" /\ Flow.subtype flow = None
          /\ Flow.intensity flow = Math_min (WaterUse.liters wa / 10) 1
       \/ Flow.type flow = "materials" /\ Flow.subtype flow = Some "supply"
          /\ Flow.intensity flow = 0.5) ->
      Some (Flow.to flow)
      = match currentDatacenter this with
        | Rec d => Some (Datacenter.coords d)
        | _ => None
        end ->
      P flow) ->
  (forall flow : Flow.t,
      (Flow.type flow = "emissions" /\ Flow.subtype flow = None
       /\ Flow.intensity flow = Math_min (Emissions.grams em / 500) 1
       \/ Flow.type flow = "materials" /\ Flow.subtype flow = Some "ewaste"
          /\ Flow.intensity flow = 0.3) ->
      Some (Flow.from flow)
      = match currentDatacenter this with
        | Rec d => Some (Datacenter.coords d)
        | _ => None
        end ->
      P flow) ->
  generateFlows this el wa em ms = Ok flows ->
  Forall P flows.
Proof.
  intros Hin Hout. unfold generateFlows.
  destruct (currentDatacenter this) as [| |d|k]; cbn [record_of bind];
    try discriminate.
  destruct (currentCity this) as [| |c|k]; cbn [record_of bind];
    try discriminate.
  destruct (for_of (Electricity.sources el) _ _) as [flows1|e1] eqn:H1;
    cbn [bind]; [|discriminate].
  apply for_of_Forall with (P := P) in H1.
  2:{ intros fl x fl' HP [= <-]. apply Forall_push; [exact HP|].
      apply Hin; cbn; tauto. }
  2:{ apply Forall_push; [constructor|]. apply Hin; cbn; tauto. }
  set (flows2 := if 0 <? WaterUse.liters wa then _ else flows1).
  assert (H2 : Forall P flows2).
  { subst flows2. destruct (0 <? WaterUse.liters wa); [|exact H1].
    apply Forall_push; [exact H1|]. apply Hin; cbn; tauto. }
  clearbody flows2.
  destruct (if truthy (Emissions.drift em) then _ else Ok flows2)
    as [flows3|e3] eqn:H3; cbn [bind]; [|discriminate].
  assert (H3' : Forall P flows3).
  { destruct (truthy (Emissions.drift em)); [|now injection H3 as <-].
    destruct (record_of (Emissions.drift em)) as [dr|e]; cbn [bind] in H3;
      [|discriminate].
    apply for_of_Forall with (P := P) in H3; [exact H3| |exact H2].
    intros fl x fl' HP [= <-]. apply Forall_push; [exact HP|].
    apply Hout; cbn; tauto. }
  destruct (for_of (Materials.materials ms) _ flows3) as [flows4|e4] eqn:H4;
    cbn [bind]; [|discriminate].
  apply for_of_Forall with (P := P) in H4; [| |exact H3'].
  2:{ intros fl x fl' HP. destruct (record_of (snd x)) as [m|e];
        cbn [bind]; [|discriminate].
      intros [= <-]. apply Forall_push; [exact HP|]. apply Hin; cbn; tauto. }
  intros H5. apply for_of_Forall with (P := P) in H5; [exact H5| |exact H4].
  intros fl x fl' HP [= <-]. apply Forall_push; [exact HP|].
  apply Hout; cbn; tauto.
Qed.

(** X12.  Every flow [generateFlows] returns passes through the selected
    datacenter, whatever results it is given: data, electricity, water
    and supply flows end at its coordinates, emissions and e-waste flows
    start there, and there is no flow of another kind. *)
Theorem generateFlows_through_datacenter
  (this : SimulationEngine) (d : Datacenter.t)
  (el : Electricity.t) (wa : WaterUse.t) (em : Emissions.t)
  (ms : Materials.t) (flows : list Flow.t) :
  currentDatacenter this = Rec d ->
  generateFlows this el wa em ms = Ok flows ->
  Forall (through (Datacenter.coords d)) flows.
Proof.
  intros Hd. apply generateFlows_Forall; rewrite Hd; intros flow Hkind [= Hend].
  - left. split; [|exact Hend]. tauto.
  - right. split; [|exact Hend]. tauto.
Qed.

Lemma SFcompare_antisym (a b : spec_float) :
  SFcompare b a
  = match SFcompare a b with
    | Some c => Some (CompOpp c)
    | None => None
    end.
Proof.
  destruct a as [sa|sa| |sa ma ea], b as [sb|sb| |sb mb eb]; cbn;
    try reflexivity;
    try (destruct sa; reflexivity); try (destruct sb; reflexivity);
    try (destruct sa, sb; reflexivity).
  destruct sa, sb; try reflexivity;
    rewrite (Z.compare_antisym ea eb);
    destruct (ea ?= eb)%Z; cbn; try reflexivity;
    pose proof (Pos.compare_cont_antisym ma mb Eq) as Hp; cbn in Hp;
    rewrite <- Hp; now rewrite ?CompOpp_involutive.
Qed.

Lemma ltb_asym (x y : float) : (x <? y) = true -> (y <? x) = false.
Proof.
  rewrite !ltb_spec. unfold SFltb.
  rewrite (SFcompare_antisym (Prim2SF x) (Prim2SF y)).
  destruct (SFcompare (Prim2SF x) (Prim2SF y)) as [[| |]|];
    try discriminate; reflexivity.
Qed.

Lemma ltb_leb (x y : float) : (x <? y) = true -> (x <=? y) = true.
Proof.
  rewrite ltb_spec, leb_spec. unfold SFltb, SFleb.
  destruct (SFcompare (Prim2SF x) (Prim2SF y)) as [[| |]|];
    try discriminate; reflexivity.
Qed.

(** Two numbers are comparable unless one of them is [NaN]. *)
Lemma not_ltb_leb (x y : float) :
  PrimFloat.is_nan x = false -> PrimFloat.is_nan y = false ->
  (y <? x) = false -> (x <=? y) = true.
Proof.
  unfold PrimFloat.is_nan.
  rewrite !FloatAxioms.eqb_spec, ltb_spec, leb_spec.
  unfold SFeqb, SFltb, SFleb.
  rewrite (SFcompare_antisym (Prim2SF x) (Prim2SF y)).
  destruct (Prim2SF x) as [sa|sa| |sa ma ea],
           (Prim2SF y) as [sb|sb| |sb mb eb]; cbn;
    try discriminate; try reflexivity;
    try (destruct sa; try discriminate; reflexivity);
    try (destruct sb; try discriminate; reflexivity);
    try (destruct sa, sb; try discriminate; reflexivity).
  intros _ _.
  destruct sa, sb; try discriminate; try reflexivity;
    destruct (ea ?= eb)%Z; cbn; try discriminate; try reflexivity;
    destruct (Pos.compare_cont Eq ma mb); cbn;
    try discriminate; reflexivity.
Qed.

(** [Math.min(x, 1)] is never above 1. *)
Lemma Math_min_capped (x : float) : (1 <? Math_min x 1) = false.
Proof.
  unfold Math_min.
  destruct (PrimFloat.is_nan x || PrimFloat.is_nan 1); [reflexivity|].
  destruct (x <? 1) eqn:Hlt; [exact (ltb_asym _ _ Hlt)|].
  destruct (1 <? x) eqn:Hgt; [reflexivity|].
  destruct (PrimFloat.is_zero x && PrimFloat.get_sign x);
    [exact Hgt | reflexivity].
Qed.

(** X13.  Whatever the hour, the records and the results it is given,
    [generateFlows] returns no data, water, emissions or materials flow
    with an intensity above 1: such an intensity is at most 1 or [NaN].
    Only an electricity flow can exceed 1, when a grid-mix share
    does. *)
Theorem generateFlows_intensities_capped
  (this : SimulationEngine)
  (el : Electricity.t) (wa : WaterUse.t) (em : Emissions.t)
  (ms : Materials.t) (flows : list Flow.t) :
  generateFlows this el wa em ms = Ok flows ->
  Forall capped flows.
Proof.
  apply generateFlows_Forall; intros flow Hkind _; unfold capped.
  - destruct Hkind as [(_ & _ & ->) | [(-> & _) | [(_ & _ & ->)
                                                   | (_ & _ & ->)]]];
      auto using Math_min_capped.
  - destruct Hkind as [(_ & _ & ->) | (_ & _ & ->)];
      auto using Math_min_capped.
Qed.

Lemma runSimulation_flows_generated
  (H : Host) (this : SimulationEngine) (r : Simulation.t) :
  runSimulation H this = Ok r ->
  generateFlows this (Simulation.electricity r) (Simulation.water r)
    (Simulation.emissions r) (Simulation.materials r)
  = Ok (Simulation.flows r).
Proof.
  unfold runSimulation.
  destruct (negb _ || negb _ || negb _); [discriminate|].
  repeat match goal with
         | |- bind ?x _ = Ok _ -> _ =>
             let Hx := fresh "Hx" in
             destruct x eqn:Hx; cbn [bind]; [|discriminate]
         end.
  intros [= <-]. cbn. assumption.
Qed.

(** The flows of the Phoenix simulation pass through Arizona. *)
Lemma generateFlows_through_datacenter_witness :
  exists r,
    runSimulation SeriesHost.host phoenix_image_arizona = Ok r
    /\ Forall (through (Datacenter.coords arizona)) (Simulation.flows r).
Proof.
  destruct (runSimulation SeriesHost.host phoenix_image_arizona)
    as [r|e] eqn:Hrun; [|vm_compute in Hrun; discriminate].
  exists r. split; [reflexivity|].
  exact (generateFlows_through_datacenter phoenix_image_arizona arizona
           _ _ _ _ _ eq_refl (runSimulation_flows_generated _ _ _ Hrun)).
Defined.

(** The flows of the Phoenix simulation at hour 24. *)
Lemma generateFlows_intensities_capped_witness :
  exists r,
    runSimulation SeriesHost.host
      (configure phoenix_image_arizona
         {| Args.city := None; Args.workload := None;
            Args.datacenter := None; Args.hour := Some 24%Z |}) = Ok r
    /\ Forall capped (Simulation.flows r).
Proof.
  destruct (runSimulation SeriesHost.host (configure phoenix_image_arizona _))
    as [r|e] eqn:Hrun; [|vm_compute in Hrun; discriminate].
  exists r. split; [reflexivity|].
  exact (generateFlows_intensities_capped _ _ _ _ _ _
           (runSimulation_flows_generated _ _ _ Hrun)).
Defined.

(** ** A datacenter without a drift entry *)

Lemma generateFlows_groups_no_drift
  (this : SimulationEngine) (c : City.t) (d : Datacenter.t)
  (el : Electricity.t) (wa : WaterUse.t) (em : Emissions.t) :
  currentCity this = Rec c ->
  currentDatacenter this = Rec d ->
  Electricity.sources el = Energy.sources (Datacenter.energy d) ->
  truthy (Emissions.drift em) = false ->
  exists flows,
    generateFlows this el wa em getMaterials = Ok flows
    /\ map FlowSpec.of_flow flows
       = FlowSpec.expected_with (FlowSpec.share_or d) c d wa
           (Emissions.grams em) [].
Proof.
  intros Hc Hd Hsources Hdrift.
  destruct getMaterials_curated as (ms & Hms & _ & Hcurated).
  unfold generateFlows.
  rewrite Hc, Hd, Hsources, Hdrift, Hms.
  cbn [record_of bind].
  rewrite for_of_push. cbn [bind].
  rewrite for_of_records. cbn [bind].
  rewrite for_of_push.
  eexists. split; [reflexivity|].
  unfold FlowSpec.expected_with, push, slice0. rewrite Hcurated.
  destruct (0 <? WaterUse.liters wa);
    rewrite ?map_app, ?map_map, <- ?app_assoc; reflexivity.
Qed.

(** X14.  [generateFlows] allows for a datacenter that [EMISSIONS_DRIFT]
    does not list: it then returns the flows without any emissions flow.
    [runSimulation] does not: for such a datacenter it throws a
    [TypeError], from the narrative template reading
    [emissionsDrift.direction], before [generateFlows] is called. *)
Theorem runSimulation_needs_drift_entry
  (H : Host) (this : SimulationEngine) (c : City.t) (w : Workload.t)
  (d : Datacenter.t) :
  currentCity this = Rec c ->
  currentWorkload this = Rec w ->
  currentDatacenter this = Rec d ->
  get EMISSIONS_DRIFT (Datacenter.id d) = Undefined ->
  runSimulation H this = Throw TypeError
  /\ exists el wa em flows,
      calculateElectricity this = Ok (Some el)
      /\ calculateWater this = Ok (Some wa)
      /\ calculateEmissions this = Ok (Some em)
      /\ generateFlows this el wa em getMaterials = Ok flows
      /\ Forall (fun flow => Flow.type flow <> "emissions") flows.
Proof.
  intros Hc Hw Hd Hdr.
  destruct (calculateElectricity_configured this w d Hw Hd)
    as (el & Hel & _ & _ & Hsources & _).
  destruct (calculateWater_configured this w d Hw Hd)
    as (_ & wa & _ & Hwa & _).
  destruct (calculateEmissions_configured this w d Hw Hd)
    as (_ & em & _ & Hem & _ & Hdrift).
  rewrite Hdr in Hdrift.
  split.
  - destruct ewaste_first as [e0 He0].
    unfold runSimulation, NARRATIVES_standard.
    rewrite Hc, Hw, Hd, Hel, Hwa, Hem, He0.
    cbn [truthy negb orb record_of deref bind NarrativeData.emissionsDrift].
    rewrite Hdrift. reflexivity.
  - assert (Hfalsy : truthy (Emissions.drift em) = false)
      by now rewrite Hdrift.
    destruct (generateFlows_groups_no_drift this c d el wa em
                Hc Hd Hsources Hfalsy) as (flows & Hflows & Hexpected).
    exists el, wa, em, flows. repeat (split; [assumption|]).
    assert (Hall : Forall (fun e => FlowSpec.type e <> "emissions")
                     (map FlowSpec.of_flow flows)).
    { rewrite Hexpected. unfold FlowSpec.expected_with.
      repeat (apply Forall_app; split);
        try (apply Forall_map, Forall_forall; intros x _; cbn; discriminate).
      all: try (destruct (0 <? WaterUse.liters wa)).
      all: repeat constructor.
      all: cbn; discriminate. }
    apply Forall_forall. intros flow Hin.
    rewrite Forall_forall in Hall.
    exact (Hall (FlowSpec.of_flow flow) (in_map _ _ _ Hin)).
Qed.

(** Phoenix and image generation with the unlisted datacenter
    ['oregon']. *)
Lemma runSimulation_needs_drift_entry_witness :
  runSimulation SeriesHost.host
    (set_currentDatacenter phoenix_image_arizona (Rec unlisted))
  = Throw TypeError.
Proof.
  exact (proj1 (runSimulation_needs_drift_entry SeriesHost.host
                  (set_currentDatacenter phoenix_image_arizona (Rec unlisted))
                  _ _ unlisted eq_refl eq_refl eq_refl eq_refl)).
Defined.

(** ** The zoom clamp of the globe *)

(** [Math.min(5, z)] is [z] or 5, at most 5, and no [NaN] unless [z]
    is. *)
Lemma Math_min_5 (z : float) :
  PrimFloat.is_nan z = false ->
  PrimFloat.is_nan (Math_min 5 z) = false
  /\ (Math_min 5 z <=? 5) = true.
Proof.
  intros Hz. unfold Math_min. rewrite Hz.
  change (PrimFloat.is_nan 5) with false. cbn [orb].
  change (PrimFloat.is_zero 5) with false. cbn [andb].
  destruct (5 <? z) eqn:Hgt; [split; reflexivity|].
  split; [destruct (z <? 5); exact Hz|].
  destruct (z <? 5) eqn:Hlt; [exact (ltb_leb _ _ Hlt)|].
  exact (not_ltb_leb z 5 Hz eq_refl Hgt).
Qed.

(** X15.  After a wheel event the camera distance lies in [[1.5, 5]],
    whatever the distance before and the wheel delta, unless their
    combination [z + deltaY * 0.001] is [NaN] (a [NaN] operand, or
    opposite infinities), in which case the distance becomes [NaN]:
    neither [Math.min] nor [Math.max] replaces a [NaN]. *)
Theorem onWheel_clamps (z deltaY : float) :
  (PrimFloat.is_nan (z + deltaY * 0.001) = false ->
   (1.5 <=? onWheel z deltaY) = true /\ (onWheel z deltaY <=? 5) = true)
  /\ (PrimFloat.is_nan (z + deltaY * 0.001) = true ->
      PrimFloat.is_nan (onWheel z deltaY) = true).
Proof.
  unfold onWheel. cbv zeta.
  set (moved := (z + deltaY * 0.001)%float).
  split.
  - intros Hmoved.
    destruct (Math_min_5 moved Hmoved) as [Hnan Hle].
    set (m := Math_min 5 moved) in *.
    unfold Math_max. rewrite Hnan.
    change (PrimFloat.is_nan 1.5) with false. cbn [orb].
    change (PrimFloat.is_zero 1.5) with false. cbn [andb].
    destruct (m <? 1.5) eqn:Hlt; [split; reflexivity|].
    destruct (1.5 <? m) eqn:Hgt; [|split; reflexivity].
    split; [exact (ltb_leb _ _ Hgt) | exact Hle].
  - intros Hmoved. unfold Math_max, Math_min. rewrite Hmoved.
    rewrite orb_true_r. reflexivity.
Qed.

(* ================================================================== *)
(** * The layer buttons *)

Lemma layers_shape (o : object bool) :
  map fst o = Globe.layers ->
  exists e w m x,
    o = [ ("electricity", e); ("water", w);
          ("emissions", m); ("materials", x) ].
Proof.
  destruct o as [|[k1 e] [|[k2 w] [|[k3 m] [|[k4 x] [|? ?]]]]];
    try discriminate.
  intros [= -> -> -> ->]. now exists e, w, m, x.
Qed.

(** One click keeps the globe and the controller in step and settles the
    "all" button. *)
Lemma handle_in_step (s : LayerButtons.t) (c : LayerButtons.click) :
  LayerButtons.keyed s ->
  LayerButtons.layerVisibility s = LayerButtons.activeLayers s ->
  LayerButtons.on_button c ->
  let s' := LayerButtons.handle s c in
  LayerButtons.keyed s'
  /\ LayerButtons.layerVisibility s' = LayerButtons.activeLayers s'
  /\ LayerButtons.allBtn s' = LayerButtons.allEnabled s'
  /\ (LayerButtons.allBtn s' = true -> LayerButtons.none_active s' = true).
Proof.
  destruct s as [active allBtn buttons visibility].
  intros (Ha & Hb & _) Hsync Hc. cbn in Ha, Hb, Hsync. subst visibility.
  destruct (layers_shape _ Ha) as (a1 & a2 & a3 & a4 & ->).
  destruct (layers_shape _ Hb) as (b1 & b2 & b3 & b4 & ->).
  destruct c as [|layer].
  - repeat split.
  - destruct Hc as [<- | [<- | [<- | [<- | []]]]];
      destruct a1, a2, a3, a4; cbn;
      repeat split; try reflexivity; discriminate.
Qed.

(** X18.  The layer buttons: when the globe starts in step with the
    controller's [activeLayers], after any series of clicks on the five
    buttons the globe's [layerVisibility] holds the controller's
    [activeLayers]; and once a button has been clicked, the "all" button
    is highlighted exactly when the four layers are enabled, and no layer
    button is highlighted then. *)
Theorem layer_buttons_keep_in_step
  (s : LayerButtons.t) (cs : list LayerButtons.click) :
  LayerButtons.keyed s ->
  LayerButtons.layerVisibility s = LayerButtons.activeLayers s ->
  Forall LayerButtons.on_button cs ->
  let s' := LayerButtons.clicks s cs in
  LayerButtons.keyed s'
  /\ LayerButtons.layerVisibility s' = LayerButtons.activeLayers s'
  /\ (cs <> [] ->
      LayerButtons.allBtn s' = LayerButtons.allEnabled s'
      /\ (LayerButtons.allBtn s' = true ->
          LayerButtons.none_active s' = true)).
Proof.
  intros Hkeyed Hsync Hcs. cbv zeta. unfold LayerButtons.clicks.
  induction cs as [|c cs IH] using rev_ind.
  - cbn. split; [exact Hkeyed|]. split; [exact Hsync|]. now intros [].
  - apply Forall_app in Hcs. destruct Hcs as [Hcs Hc].
    apply Forall_inv in Hc.
    destruct (IH Hcs) as (Hk & Hs & _).
    rewrite fold_left_app. cbn [fold_left].
    destruct (handle_in_step _ c Hk Hs Hc) as (Hk' & Hs' & Hall & Hnone).
    split; [exact Hk'|]. split; [exact Hs'|]. intros _.
    split; [exact Hall | exact Hnone].
Qed.

(** From the page's start, with the water button highlighted: hide
    water, show everything, hide emissions. *)
Lemma layer_buttons_keep_in_step_witness :
  let s' :=
    LayerButtons.clicks
      (LayerButtons.bound true
         [ ("electricity", false); ("water", true);
           ("emissions", false); ("materials", false) ])
      [ LayerButtons.Layer "water"; LayerButtons.All;
        LayerButtons.Layer "emissions" ] in
  LayerButtons.layerVisibility s' = LayerButtons.activeLayers s'
  /\ LayerButtons.allBtn s' = false.
Proof.
  cbv zeta.
  destruct (layer_buttons_keep_in_step
              (LayerButtons.bound true
                 [ ("electricity", false); ("water", true);
                   ("emissions", false); ("materials", false) ])
              [ LayerButtons.Layer "water"; LayerButtons.All;
                LayerButtons.Layer "emissions" ])
    as (_ & Hsync & Hall).
  - repeat split.
  - reflexivity.
  - repeat constructor; cbn; tauto.
  - split; [exact Hsync|].
    destruct Hall as [Hall _]; [discriminate|].
    rewrite Hall. reflexivity.
Defined.

(** X19.  The highlight of a layer button does not tell whether its layer
    is shown: after "all flows", a click on a layer hides that layer and
    leaves no button highlighted at all, neither "all" nor any of the
    four, although the three other layers are shown. *)
Theorem click_after_all_highlights_nothing
  (s : LayerButtons.t) (layer : string) :
  LayerButtons.keyed s ->
  In layer Globe.layers ->
  let s' :=
    LayerButtons.clicks s [ LayerButtons.All; LayerButtons.Layer layer ] in
  LayerButtons.allBtn s' = false
  /\ LayerButtons.none_active s' = true
  /\ forall other,
      In other Globe.layers ->
      truthy_at (LayerButtons.layerVisibility s') other
      = negb (String.eqb other layer).
Proof.
  destruct s as [active allBtn buttons visibility].
  intros (_ & Hb & Hv) Hlayer. cbn in Hb, Hv.
  destruct (layers_shape _ Hb) as (b1 & b2 & b3 & b4 & ->).
  destruct (layers_shape _ Hv) as (v1 & v2 & v3 & v4 & ->).
  destruct Hlayer as [<- | [<- | [<- | [<- | []]]]]; cbn;
    (split; [reflexivity|]); (split; [reflexivity|]);
    intros other [<- | [<- | [<- | [<- | []]]]]; reflexivity.
Qed.

(** From the page's start, "all flows" and then the water button. *)
Lemma click_after_all_highlights_nothing_witness :
  LayerButtons.none_active
    (LayerButtons.clicks
       (LayerButtons.bound true
          [ ("electricity", false); ("water", false);
            ("emissions", false); ("materials", false) ])
       [ LayerButtons.All; LayerButtons.Layer "water" ]) = true.
Proof.
  apply (click_after_all_highlights_nothing
           (LayerButtons.bound true
              [ ("electricity", false); ("water", false);
                ("emissions", false); ("materials", false) ])
           "water").
  - repeat split.
  - cbn. tauto.
Defined.

(* ================================================================== *)
(** * The location popup *)

(** X20.  Where [showLocationPopup] puts the popup.  Whatever the
    numbers, it is never left of [20] nor above [80].  For whole pixels:
    in a window at least [360] wide it lies within the padding of the
    right edge for every click inside the window, in a narrower window it
    never does; in a window at least [500] high it lies within the padding
    of the bottom edge, and in a lower window it sits at [80] and reaches
    beyond it: the adjustment for the top is made after, and overrides,
    the one for the bottom. *)
Theorem showLocationPopup_position_on_screen :
  (forall clickX clickY innerWidth innerHeight : float,
      let '(x, y) :=
        showLocationPopup_position Pixel.number
          clickX clickY innerWidth innerHeight in
      (x <? 20) = false /\ (y <? 80) = false)
  /\ (forall clickX clickY innerWidth innerHeight : Z,
         let '(x, y) :=
           showLocationPopup_position Pixel.whole
             clickX clickY innerWidth innerHeight in
         (20 <= x /\ 80 <= y)
         /\ (clickX <= innerWidth -> 360 <= innerWidth ->
             x + 320 <= innerWidth - 20)
         /\ (innerWidth < 360 -> innerWidth - 20 < x + 320)
         /\ (500 <= innerHeight -> y + 400 <= innerHeight - 20)
         /\ (innerHeight < 500 ->
             y = 80 /\ innerHeight - 20 < y + 400))%Z.
Proof.
  split.
  - intros clickX clickY innerWidth innerHeight.
    unfold showLocationPopup_position. cbv zeta.
    cbn [Pixel.num Pixel.add Pixel.sub Pixel.lt Pixel.number].
    change (float_of_Z 20) with 20%float.
    change (float_of_Z 80) with 80%float.
    split.
    + match goal with
      | |- ((if ?c then _ else ?l) <? _) = false =>
          destruct c eqn:Hlt; [reflexivity | exact Hlt]
      end.
    + match goal with
      | |- ((if ?c then _ else ?t) <? _) = false =>
          destruct c eqn:Hlt; [reflexivity | exact Hlt]
      end.
  - intros clickX clickY innerWidth innerHeight.
    unfold showLocationPopup_position. cbv zeta.
    cbn [Pixel.num Pixel.add Pixel.sub Pixel.lt Pixel.whole].
    repeat match goal with
           | |- context [(?a <? ?b)%Z] => destruct (Z.ltb_spec a b)
           end; lia.
Qed.

(** X21.  The popup and the engine compute the fossil share of a grid
    mix from disjoint keys: the popup reads [solar], [wind], [hydro],
    [biomass] and [nuclear] only and calls the rest fossil, the engine
    adds up [natural_gas], [coal], [peat] and [oil].  For the datacenters
    of the table the two printed percentages agree when the grid mix has
    no share [other]; the one grid mix that has, Singapore's, is 97%
    fossil in the popup and 95% in the dashboard and the narrative. *)
Theorem popup_and_engine_fossil_percent :
  (forall g g' : object float,
      (forall key,
          In key ["solar"; "wind"; "hydro"; "biomass"; "nuclear"] ->
          own g key = own g' key) ->
      showLocationPopup_mix g = showLocationPopup_mix g')
  /\ (forall (key : string) (d : Datacenter.t),
         own DATACENTERS key = Some d ->
         let g := Energy.gridMix (Datacenter.energy d) in
         (own g "other" = None ->
          popup_fossil_percent g = engine_fossil_percent g)
         /\ (own g "other" <> None ->
             key = "singapore"
             /\ popup_fossil_percent g = 97
             /\ engine_fossil_percent g = 95)).
Proof.
  split.
  - intros g g' Hagree. unfold showLocationPopup_mix.
    rewrite !Hagree by (cbn; tauto). reflexivity.
  - intros key d Hd. apply own_key in Hd.
    destruct Hd as [[= <- <-] | [[= <- <-] | [[= <- <-] | [[= <- <-] | []]]]];
      cbv zeta; split;
      try (intros _; vm_compute; reflexivity);
      try (intros Hother; vm_compute in Hother; discriminate);
      try (intros Hother; exfalso; apply Hother; reflexivity).
    intros _. repeat split; vm_compute; reflexivity.
Qed.

(* ================================================================== *)
(** * The flows the globe draws *)

(** The loop of [visualizeFlows] keeps the flows of the shown layers and
    the data flows, in order. *)
Lemma visualizeFlows_filter (layerVisibility : object bool)
  (flows : list Flow.t) :
  Globe.visualizeFlows layerVisibility flows
  = filter
      (fun flow =>
         truthy_at layerVisibility (Flow.type flow)
         || String.eqb (Flow.type flow) "data")
      flows.
Proof.
  unfold Globe.visualizeFlows.
  enough (Hacc : forall flowLines,
             fold_left
               (fun flowLines flow =>
                  if negb (truthy_at layerVisibility (Flow.type flow))
                     && negb (String.eqb (Flow.type flow) "data")
                  then flowLines else push flowLines flow)
               flows flowLines
             = (flowLines
                ++ filter
                     (fun flow =>
                        truthy_at layerVisibility (Flow.type flow)
                        || String.eqb (Flow.type flow) "data")
                     flows)%list)
    by exact (Hacc []).
  induction flows as [|flow flows IH]; intros flowLines; cbn.
  - now rewrite app_nil_r.
  - rewrite IH.
    destruct (truthy_at layerVisibility (Flow.type flow)),
             (String.eqb (Flow.type flow) "data"); cbn;
      unfold push; now rewrite <- ?app_assoc.
Qed.

(** A loop whose body pushes one element each time only adds to the
    array. *)
Lemma for_of_grows {A B} (Q : B -> Prop) (xs : list A)
  (body : list B -> A -> result (list B)) :
  (forall flows x flows',
      body flows x = Ok flows' ->
      exists y, flows' = push flows y /\ Q y) ->
  forall flows result,
    for_of xs body flows = Ok result ->
    exists added, result = (flows ++ added)%list /\ Forall Q added.
Proof.
  intros Hbody. induction xs as [|x xs IH]; intros flows result; cbn.
  - intros [= <-]. exists []. now rewrite app_nil_r.
  - destruct (body flows x) as [flows'|e] eqn:Hstep; cbn [bind];
      [|discriminate].
    destruct (Hbody _ _ _ Hstep) as (y & -> & Hy).
    intros Hrest. destruct (IH _ _ Hrest) as (added & -> & Hadded).
    exists (y :: added). unfold push. rewrite <- app_assoc.
    split; [reflexivity | now constructor].
Qed.

(** [generateFlows] returns one data flow, first, and then flows of the
    four layers. *)
Lemma generateFlows_data_first
  (this : SimulationEngine) (el : Electricity.t) (wa : WaterUse.t)
  (em : Emissions.t) (ms : Materials.t) (flows : list Flow.t) :
  generateFlows this el wa em ms = Ok flows ->
  exists data rest,
    flows = data :: rest
    /\ Flow.type data = "data"
    /\ Forall (fun flow => In (Flow.type flow) Globe.layers) rest.
Proof.
  set (Q := fun flow => In (Flow.type flow) Globe.layers).
  unfold generateFlows.
  destruct (currentDatacenter this) as [| |d|k]; cbn [record_of bind];
    try discriminate.
  destruct (currentCity this) as [| |c|k]; cbn [record_of bind];
    try discriminate.
  match goal with
  | |- context [push [] ?flow] => set (data := flow)
  end.
  assert (Hdata : Flow.type data = "data") by reflexivity.
  clearbody data.
  destruct (for_of (Electricity.sources el) _ _) as [flows1|e1] eqn:H1;
    cbn [bind]; [|discriminate].
  apply (for_of_grows Q) in H1.
  2:{ intros fl x fl' [= <-]. eexists. split; [reflexivity|].
      unfold Q. cbn. tauto. }
  destruct H1 as (a1 & -> & Ha1).
  set (flows2 := if 0 <? WaterUse.liters wa then _ else _).
  assert (H2 : exists a2, flows2 = (push [] data ++ a2)%list /\ Forall Q a2).
  { subst flows2. destruct (0 <? WaterUse.liters wa).
    - eexists. unfold push at 1. rewrite <- app_assoc.
      split; [reflexivity|]. apply Forall_app. split; [exact Ha1|].
      constructor; [|constructor]. unfold Q. cbn. tauto.
    - now exists a1. }
  clearbody flows2. destruct H2 as (a2 & -> & Ha2).
  destruct (if truthy (Emissions.drift em) then _ else Ok _)
    as [flows3|e3] eqn:H3; cbn [bind]; [|discriminate].
  assert (H3' : exists a3, flows3 = (push [] data ++ a3)%list
                         /\ Forall Q a3).
  { destruct (truthy (Emissions.drift em)).
    - destruct (record_of (Emissions.drift em)) as [dr|e]; cbn [bind] in H3;
        [|discriminate].
      apply (for_of_grows Q) in H3.
      2:{ intros fl x fl' [= <-]. eexists. split; [reflexivity|].
          unfold Q. cbn. tauto. }
      destruct H3 as (a3 & -> & Ha3). eexists. rewrite <- app_assoc.
      split; [reflexivity|]. apply Forall_app. now split.
    - injection H3 as <-. now exists a2. }
  clear H3. destruct H3' as (a3 & -> & Ha3).
  destruct (for_of (Materials.materials ms) _ _) as [flows4|e4] eqn:H4;
    cbn [bind]; [|discriminate].
  apply (for_of_grows Q) in H4.
  2:{ intros fl x fl' Hb.
      destruct (record_of (snd x)) as [material|e]; cbn [bind] in Hb;
        [|discriminate].
      injection Hb as <-. eexists. split; [reflexivity|].
      unfold Q. cbn. tauto. }
  destruct H4 as (a4 & -> & Ha4).
  intros H5. apply (for_of_grows Q) in H5.
  2:{ intros fl x fl' [= <-]. eexists. split; [reflexivity|].
      unfold Q. cbn. tauto. }
  destruct H5 as (a5 & -> & Ha5).
  exists data, ((a3 ++ a4) ++ a5)%list.
  unfold push. cbn [app]. rewrite <- !app_assoc.
  split; [reflexivity|]. split; [exact Hdata|].
  repeat (apply Forall_app; split); assumption.
Qed.

Lemma filter_all {A} (p : A -> bool) (xs : list A) :
  Forall (fun x => p x = true) xs -> filter p xs = xs.
Proof.
  induction 1 as [|x xs Hx _ IH]; cbn; [reflexivity|].
  now rewrite Hx, IH.
Qed.

Lemma filter_none {A} (p : A -> bool) (xs : list A) :
  Forall (fun x => p x = false) xs -> filter p xs = [].
Proof.
  induction 1 as [|x xs Hx _ IH]; cbn; [reflexivity|].
  now rewrite Hx, IH.
Qed.

(** X22.  What the globe draws of the flows the engine generates.  When
    the four layers are shown, every flow gets its line, in the engine's
    order.  When the four layers are hidden, one line is still drawn: the
    request from the city to the datacenter, the first flow, whose type
    [data] is no layer and cannot be hidden. *)
Theorem visualizeFlows_of_generateFlows
  (this : SimulationEngine) (el : Electricity.t) (wa : WaterUse.t)
  (em : Emissions.t) (ms : Materials.t) (flows : list Flow.t)
  (layerVisibility : object bool) :
  generateFlows this el wa em ms = Ok flows ->
  (shown layerVisibility ->
   Globe.visualizeFlows layerVisibility flows = flows)
  /\ (hidden layerVisibility ->
      exists data,
        Globe.visualizeFlows layerVisibility flows = [data]
        /\ Flow.type data = "data"
        /\ List.hd_error flows = Some data).
Proof.
  intros Hflows.
  destruct (generateFlows_data_first _ _ _ _ _ _ Hflows)
    as (data & rest & -> & Hdata & Hrest).
  rewrite visualizeFlows_filter. split.
  - intros Hshown. apply filter_all. constructor.
    + rewrite Hdata. apply orb_true_r.
    + apply Forall_forall. intros flow Hin.
      rewrite Forall_forall in Hrest.
      now rewrite (Hshown _ (Hrest _ Hin)).
  - intros Hhidden. exists data. cbn [filter].
    rewrite Hdata, orb_true_r.
    split; [|split; reflexivity].
    f_equal. apply filter_none.
    apply Forall_forall. intros flow Hin.
    rewrite Forall_forall in Hrest. pose proof (Hrest _ Hin) as Hlayer.
    rewrite (Hhidden _ Hlayer).
    destruct Hlayer as [<- | [<- | [<- | [<- | []]]]]; reflexivity.
Qed.

(** The flows of the Phoenix simulation, with every layer hidden. *)
Lemma visualizeFlows_of_generateFlows_witness :
  exists r data,
    runSimulation SeriesHost.host phoenix_image_arizona = Ok r
    /\ Globe.visualizeFlows
         (Globe.setAllLayersVisibility Globe.layerVisibility false)
         (Simulation.flows r) = [data].
Proof.
  destruct (runSimulation SeriesHost.host phoenix_image_arizona)
    as [r|e] eqn:Hrun; [|vm_compute in Hrun; discriminate].
  destruct (proj2 (visualizeFlows_of_generateFlows _ _ _ _ _ _
                     (Globe.setAllLayersVisibility Globe.layerVisibility
                        false)
                     (runSimulation_flows_generated _ _ _ Hrun)))
    as (data & Hdrawn & _).
  - intros layer [<- | [<- | [<- | [<- | []]]]]; reflexivity.
  - exists r, data. split; [reflexivity | exact Hdrawn].
Defined.

